(** * n8n workflow security analyzer: a shallow embedding of
      [trabalho_final/workflow_analyzer.py] and the properties of its
      validation, metadata-extraction and aggregation pipeline. *)

From Stdlib Require Import List String Ascii ZArith Bool Lia.
From Stdlib Require Import DecimalString SpecFloat.
Import ListNotations.
Local Open Scope string_scope.
Local Open Scope Z_scope.

Set Implicit Arguments.
Set Warnings "-register-all".

(** ** Python values

    Every object the analyzer handles is either a value produced by
    [json.load] / [json.loads] or a dict or list literal built from such
    values.  A [dict] is an insertion-ordered association list whose keys
    are pairwise different; an [int] is unbounded; a [float] is an IEEE-754
    double in the specification format of the standard library; a [str] is
    a sequence of characters. *)

Inductive value : Type :=
| VNone
| VBool (b : bool)
| VInt (z : Z)
| VFloat (f : spec_float)
| VStr (s : string)
| VList (l : list value)
| VDict (d : list (value * value)).

(** The exceptions the program can meet, by class. *)
Inductive exn : Type :=
| TypeError
| AttributeError
| KeyError
| OtherError (name : string).

Inductive result (A : Type) : Type :=
| Ok (a : A)
| Raise (e : exn).
Arguments Ok {A} a.
Arguments Raise {A} e.

Module Py.

Definition bind {A B} (m : result A) (k : A -> result B) : result B :=
  match m with
  | Ok a => k a
  | Raise e => Raise e
  end.

(** [isinstance(v, dict)] and [isinstance(v, list)]. *)
Definition is_dict (v : value) : bool :=
  match v with VDict _ => true | _ => false end.

Definition is_list (v : value) : bool :=
  match v with VList _ => true | _ => false end.

(** [bool(v)]: the truth value tested by [if v] and [not v]. *)
Definition truthy (v : value) : bool :=
  match v with
  | VNone => false
  | VBool b => b
  | VInt z => negb (z =? 0)
  | VFloat (S754_zero _) => false
  | VFloat _ => true
  | VStr s => negb (s =? "")%string
  | VList l => match l with [] => false | _ => true end
  | VDict d => match d with [] => false | _ => true end
  end.

(** Values that may be used as dict keys. *)
Definition hashable (v : value) : bool :=
  match v with
  | VList _ | VDict _ => false
  | _ => true
  end.

(** Exact comparison of a float with an integer. *)
Definition float_eq_int (f : spec_float) (z : Z) : bool :=
  match f with
  | S754_zero _ => z =? 0
  | S754_finite s m e =>
      let mz := if s then Z.neg m else Z.pos m in
      if 0 <=? e then z =? mz * 2 ^ e else z * 2 ^ (- e) =? mz
  | _ => false
  end.

Definition float_eq (f g : spec_float) : bool :=
  match f, g with
  | S754_nan, S754_nan => true   (* the decoder's single NaN object *)
  | _, _ => SFeqb f g
  end.

(** Key equality inside a dict ([is] or [==] on hashable values):
    [True == 1 == 1.0], strings by content, [None] with itself. *)
Definition key_eqb (a b : value) : bool :=
  match a, b with
  | VNone, VNone => true
  | VStr s, VStr t => (s =? t)%string
  | VBool x, VBool y => Bool.eqb x y
  | VBool x, VInt z | VInt z, VBool x => Z.b2z x =? z
  | VBool x, VFloat f | VFloat f, VBool x => float_eq_int f (Z.b2z x)
  | VInt x, VInt y => x =? y
  | VInt z, VFloat f | VFloat f, VInt z => float_eq_int f z
  | VFloat f, VFloat g => float_eq f g
  | _, _ => false
  end.

Section Dict.
Context {V : Type}.

(** [d.get(k)] / [k in d] for a hashable [k]: the entry of the key
    equal to [k]. *)
Fixpoint dict_get (d : list (value * V)) (k : value) : option V :=
  match d with
  | [] => None
  | (k', v) :: d' => if key_eqb k' k then Some v else dict_get d' k
  end.

(** [d[k] = v]: overwrite the entry of an equal key in place, or
    append a new entry. *)
Fixpoint dict_set (d : list (value * V)) (k : value) (v : V)
  : list (value * V) :=
  match d with
  | [] => [(k, v)]
  | (k', v') :: d' =>
      if key_eqb k' k then (k', v) :: d' else (k', v') :: dict_set d' k v
  end.

Definition dict_values (d : list (value * V)) : list V := map snd d.
Definition dict_keys (d : list (value * V)) : list value := map fst d.
End Dict.

(** Lookup of a string literal key. *)
Definition get_str (d : list (value * value)) (k : string) : option value :=
  dict_get d (VStr k).

Definition has_str (d : list (value * value)) (k : string) : bool :=
  match get_str d k with Some _ => true | None => false end.

(** [d.get(k, default)] on an arbitrary receiver: only a dict has the
    method. *)
Definition get_default (v : value) (k : string) (default : value)
  : result value :=
  match v with
  | VDict d =>
      Ok (match get_str d k with Some x => x | None => default end)
  | _ => Raise AttributeError
  end.

(** [k in v] for a string literal [k]: key membership in a dict,
    element membership in a list, substring test in a str; the other
    values are not containers. *)
Definition contains_str (v : value) (k : string) : result bool :=
  match v with
  | VDict d => Ok (has_str d k)
  | VList l => Ok (existsb (key_eqb (VStr k)) l)
  | VStr s =>
      Ok (match String.index 0 k s with Some _ => true | None => false end)
  | _ => Raise TypeError
  end.

(** [v[k]] for a string literal [k]. *)
Definition getitem_str (v : value) (k : string) : result value :=
  match v with
  | VDict d =>
      match get_str d k with Some x => Ok x | None => Raise KeyError end
  | _ => Raise TypeError
  end.

(** [len(v)]. *)
Definition len (v : value) : result Z :=
  match v with
  | VStr s => Ok (Z.of_nat (String.length s))
  | VList l => Ok (Z.of_nat (List.length l))
  | VDict d => Ok (Z.of_nat (List.length d))
  | _ => Raise TypeError
  end.

Fixpoint chars (s : string) : list value :=
  match s with
  | EmptyString => []
  | String c s' => VStr (String c EmptyString) :: chars s'
  end.

(** The elements visited by [for x in v]. *)
Definition iter (v : value) : result (list value) :=
  match v with
  | VList l => Ok l
  | VDict d => Ok (dict_keys d)
  | VStr s => Ok (chars s)
  | _ => Raise TypeError
  end.

(** Decimal rendering of an index or a count inside an f-string. *)
Definition str_of_nat (n : nat) : string :=
  NilZero.string_of_uint (Nat.to_uint n).

Definition str_of_Z (z : Z) : string :=
  NilZero.string_of_int (Z.to_int z).

End Py.

Notation "x <- m ;; k" := (Py.bind m (fun x => k))
  (at level 61, m at next level, right associativity).

(** ** The environment

    What the operating system answers when the program asks.  The file
    system and the external tools are read as a snapshot: each probe is a
    function of the path or command line alone.  The clock advances: the
    [n]-th call of [datetime.now()] reads [now n]. *)

Record datetime : Type := {
  year : nat; month : nat; day : nat;
  hour : nat; minute : nat; second : nat; microsecond : nat
}.

(** Outcome of [open(path)] followed by [json.load] (or of [json.loads]). *)
Inductive read_outcome : Type :=
| ReadOk (v : value)
| ReadDecodeError (msg : string)    (* json.JSONDecodeError, with str(e) *)
| ReadIOError (msg : string)        (* IOError / OSError, with str(e) *)
| ReadOtherError (e : exn).         (* e.g. UnicodeDecodeError *)

(** Outcome of [subprocess.run(cmd, capture_output=True, text=True,
    timeout=60)]. *)
Inductive proc_outcome : Type :=
| Exited (returncode : Z) (stdout stderr : string)
| TimedOut                          (* subprocess.TimeoutExpired *)
| ExeNotFound                       (* FileNotFoundError *)
| SpawnError (e : exn).             (* any other Exception *)

Class World : Type := {
  path_exists : string -> bool;
  path_isfile : string -> bool;
  path_isdir : string -> bool;
  read_json : string -> read_outcome;
  glob : string -> string -> list string;
  spawn : list string -> proc_outcome;
  writable : string -> bool;
  now : nat -> datetime
}.

(** ** Component A: input and validation *)

Record ValidationResult : Type := {
  valid : bool;
  errors : list string;
  warnings : list string
}.

Record WorkflowMetadata : Type := {
  filepath : string;
  workflow_id : value;
  workflow_name : value;
  node_count : Z;
  node_types : list (value * Z);
  has_connections : bool;
  connections_count : Z
}.

Module WorkflowValidator.
Import Py.

Definition add_error (r : ValidationResult) (msg : string) :=
  {| valid := valid r; errors := errors r ++ [msg]; warnings := warnings r |}.

Definition add_warning (r : ValidationResult) (msg : string) :=
  {| valid := valid r; errors := errors r; warnings := warnings r ++ [msg] |}.

Definition set_valid (r : ValidationResult) (b : bool) :=
  {| valid := b; errors := errors r; warnings := warnings r |}.

Definition required_node_fields : list string := ["id"; "name"; "type"].

(** The inner loop [for field in required_node_fields]. *)
Fixpoint check_node_fields (idx : nat) (node : list (value * value))
    (fields : list string) (r : ValidationResult) : ValidationResult :=
  match fields with
  | [] => r
  | field :: rest =>
      check_node_fields idx node rest
        (if negb (has_str node field)
         then add_warning r ("Node at index " ++ str_of_nat idx
                             ++ " missing field '" ++ field ++ "'")
         else r)
  end.

(** The loop [for idx, node in enumerate(workflow['nodes'])]. *)
Fixpoint check_nodes (idx : nat) (nodes : list value)
    (r : ValidationResult) : ValidationResult :=
  match nodes with
  | [] => r
  | node :: rest =>
      match node with
      | VDict d =>
          check_nodes (S idx) rest
            (check_node_fields idx d required_node_fields r)
      | _ =>
          check_nodes (S idx) rest
            (add_warning r ("Node at index " ++ str_of_nat idx
                            ++ " is not an object"))
      end
  end.

Definition validate_structure (workflow : value) : result ValidationResult :=
  let r := {| valid := true; errors := []; warnings := [] |} in
  has_nodes <- contains_str workflow "nodes" ;;
  r <- (if negb has_nodes then
          Ok (set_valid (add_error r "Missing required field: 'nodes'") false)
        else
          nodes <- getitem_str workflow "nodes" ;;
          match nodes with
          | VList l => Ok (check_nodes 0 l r)
          | _ =>
              Ok (set_valid (add_error r "Field 'nodes' must be an array")
                    false)
          end) ;;
  has_conns <- contains_str workflow "connections" ;;
  if negb has_conns then
    Ok (add_warning r "Workflow has no 'connections' field")
  else
    conns <- getitem_str workflow "connections" ;;
    if negb (is_dict conns) then
      Ok (add_warning r "Field 'connections' should be an object")
    else Ok r.

(** The loop [for node in workflow.get('nodes', [])] over the dict
    [node_types]. *)
Fixpoint count_node_types (nodes : list value) (acc : list (value * Z))
  : result (list (value * Z)) :=
  match nodes with
  | [] => Ok acc
  | node :: rest =>
      node_type <- get_default node "type" (VStr "unknown") ;;
      if hashable node_type then
        let n := match dict_get acc node_type with
                 | Some c => c
                 | None => 0
                 end in
        count_node_types rest (dict_set acc node_type (n + 1))
      else Raise TypeError
  end.

(** [sum(len(conns) for conns in values if isinstance(conns, dict))]. *)
Definition count_connections (values : list value) : Z :=
  fold_left
    (fun total conns =>
       match conns with
       | VDict d => total + Z.of_nat (List.length d)
       | _ => total
       end)
    values 0.

(** [connections.values()]. *)
Definition values_of (connections : value) : result (list value) :=
  match connections with
  | VDict d => Ok (dict_values d)
  | _ => Raise AttributeError
  end.

(** First block of [extract_metadata]: the dict [node_types]. *)
Definition node_type_counts (workflow : value)
  : result (list (value * Z)) :=
  nodes <- get_default workflow "nodes" (VList []) ;;
  items <- iter nodes ;;
  count_node_types items [].

Definition extract_metadata (workflow : value) (path : string)
  : result WorkflowMetadata :=
  counts <- node_type_counts workflow ;;
  connections <- get_default workflow "connections" (VDict []) ;;
  values <- values_of connections ;;
  let total := count_connections values in
  wid <- get_default workflow "id" (VStr "unknown") ;;
  wname <- get_default workflow "name" (VStr "unnamed") ;;
  nodes' <- get_default workflow "nodes" (VList []) ;;
  n <- len nodes' ;;
  has <- contains_str workflow "connections" ;;
  Ok {| filepath := path;
        workflow_id := wid;
        workflow_name := wname;
        node_count := n;
        node_types := counts;
        has_connections := has;
        connections_count := total |}.

Section WithWorld.
Context {W : World}.

Definition load_workflow (path : string)
  : result (value * ValidationResult) :=
  let r := {| valid := false; errors := []; warnings := [] |} in
  if negb (path_exists path) then
    Ok (VNone, add_error r ("File not found: " ++ path))
  else if negb (path_isfile path) then
    Ok (VNone, add_error r ("Path is not a file: " ++ path))
  else
    match read_json path with
    | ReadDecodeError msg =>
        Ok (VNone, add_error r ("Invalid JSON syntax: " ++ msg))
    | ReadIOError msg =>
        Ok (VNone, add_error r ("Cannot read file: " ++ msg))
    | ReadOtherError e => Raise e
    | ReadOk workflow =>
        validation <- validate_structure workflow ;;
        if negb (valid validation) then Ok (workflow, validation)
        else Ok (workflow, set_valid r true)
    end.

Definition scan_directory (directory pattern : string) : list string :=
  if negb (path_exists directory) then []
  else if negb (path_isdir directory) then []
  else glob directory pattern.
End WithWorld.

End WorkflowValidator.

(** ** Effects

    The observable actions of a run, in the order they happen, and the
    number of clock readings made so far. *)

Inductive event : Type :=
| Stdout (line : string)                 (* print(line) *)
| Stderr (line : string)                 (* print(line, file=sys.stderr) *)
| Spawn (cmd : list string)              (* subprocess.run(cmd, ...) *)
| OpenW (path : string)                  (* open(path, 'w') *)
| Write (path : string) (text : string). (* f.write(text) *)

Record state : Type := {
  ticks : nat;
  log : list event
}.

Definition IO (A : Type) : Type := state -> result A * state.

Module IO.

Definition ret {A} (a : A) : IO A := fun st => (Ok a, st).

Definition bind {A B} (m : IO A) (k : A -> IO B) : IO B :=
  fun st =>
    match m st with
    | (Ok a, st') => k a st'
    | (Raise e, st') => (Raise e, st')
    end.

Definition lift {A} (r : result A) : IO A := fun st => (r, st).

Definition raise {A} (e : exn) : IO A := fun st => (Raise e, st).

(** [try: m  except Exception as e: ...] hands the outcome to the
    handler. *)
Definition try {A} (m : IO A) : IO (result A) :=
  fun st => let (r, st') := m st in (Ok r, st').

(** The state after some more events. *)
Definition extend (st : state) (evs : list event) : state :=
  {| ticks := ticks st; log := log st ++ evs |}.

Definition emit (e : event) : IO unit :=
  fun st => (Ok tt, extend st [e]).

Definition print (line : string) : IO unit := emit (Stdout line).
Definition eprint (line : string) : IO unit := emit (Stderr line).

Definition datetime_now {W : World} : IO datetime :=
  fun st => (Ok (now (ticks st)),
             {| ticks := S (ticks st); log := log st |}).

Fixpoint for_each {A} (l : list A) (body : A -> IO unit) : IO unit :=
  match l with
  | [] => ret tt
  | x :: rest => bind (body x) (fun _ => for_each rest body)
  end.

Definition is_spawn (e : event) : bool :=
  match e with Spawn _ => true | _ => false end.

(** The command lines started so far. *)
Definition spawned (st : state) : list event := filter is_spawn (log st).

(** A run that starts with nothing logged, after [n] clock readings. *)
Definition fresh (n : nat) : state := {| ticks := n; log := [] |}.

End IO.

Notation "x <~ m ;; k" := (IO.bind m (fun x => k))
  (at level 61, m at next level, right associativity).
Notation "m >> k" := (IO.bind m (fun _ => k))
  (at level 61, right associativity).

(** ** Library functions

    Pure functions of the Python runtime that the analyzer calls and whose
    text output is not decided by the analyzer itself. *)

Class Runtime : Type := {
  repr : value -> string;                 (* str() of a value that is not a str *)
  exn_str : exn -> string;                (* str(e) *)
  json_loads : string -> read_outcome;    (* json.loads *)
  json_dumps : value -> string;           (* json.dump(..., indent=2) *)
  path_stem : string -> string;           (* Path(p).stem *)
  path_join : string -> string -> string; (* str(Path(a) / b) *)
  total_seconds : datetime -> datetime -> spec_float;
                                          (* (b - a).total_seconds() *)
  isoformat : datetime -> string;
  format_2f : spec_float -> string        (* f"{x:.2f}" *)
}.

Definition nl : string := String (ascii_of_nat 10) EmptyString.

(** [str(v)], as interpolated by an f-string. *)
Definition py_str {R : Runtime} (v : value) : string :=
  match v with
  | VStr s => s
  | _ => repr v
  end.

Definition pad2 (n : nat) : string :=
  if (n <? 10)%nat then "0" ++ Py.str_of_nat n else Py.str_of_nat n.

Definition pad4 (n : nat) : string :=
  if (n <? 10)%nat then "000" ++ Py.str_of_nat n
  else if (n <? 100)%nat then "00" ++ Py.str_of_nat n
  else if (n <? 1000)%nat then "0" ++ Py.str_of_nat n
  else Py.str_of_nat n.

(** [d.strftime('%Y-%m-%d %H:%M:%S')]. *)
Definition strftime_ymd_hms (d : datetime) : string :=
  pad4 (year d) ++ "-" ++ pad2 (month d) ++ "-" ++ pad2 (day d) ++ " "
  ++ pad2 (hour d) ++ ":" ++ pad2 (minute d) ++ ":" ++ pad2 (second d).

(** ** Component B: the two analyzer adapters *)

(** What [run] returns: [(findings_list, success, error_message)]. *)
Definition run_result : Type := (value * bool * string)%type.

Module AgenticRadarExecutor.
Import Py.

(** The executor object: [self.output_dir]. *)
Record t : Type := { output_dir : string }.

Section WithWorld.
Context {R : Runtime} {W : World}.

Definition report_finding (html_file : string) : value :=
  VDict [ (VStr "tool", VStr "agentic-radar");
          (VStr "type", VStr "report_generated");
          (VStr "message",
           VStr ("HTML report generated at " ++ html_file));
          (VStr "severity", VStr "info") ].

Definition warn (detail : string) : IO value :=
  IO.eprint ("Warning: Could not parse Agentic Radar JSON: " ++ detail)
  >> IO.ret (VList []).

(** First block of [_parse_output]: the findings taken from the JSON
    artifact, [[]] when there is none or it cannot be used. *)
Definition load_findings (json_file : string) : IO value :=
  if path_exists json_file then
    match read_json json_file with
    | ReadOk data =>
        match data with
        | VDict d =>
            match get_str d "findings" with
            | Some f => IO.ret f
            | None => IO.ret (VList [])
            end
        | VList _ => IO.ret data
        | _ => IO.ret (VList [])
        end
    | ReadDecodeError msg => warn msg
    | ReadIOError msg => warn msg
    | ReadOtherError e => warn (exn_str e)
    end
  else IO.ret (VList []).

Definition _parse_output (output_path workflow_name : string)
  : IO value :=
  let json_file := path_join output_path (workflow_name ++ ".json") in
  findings <~ load_findings json_file ;;
  let html_file := path_join output_path (workflow_name ++ ".html") in
  if path_exists html_file && negb (truthy findings) then
    (* findings.append({...}) *)
    match findings with
    | VList l => IO.ret (VList (l ++ [report_finding html_file]))
    | _ => IO.raise AttributeError
    end
  else IO.ret findings.

Definition command (self : t) (workflow_path : string)
  : list string :=
  let workflow_name := path_stem workflow_path in
  let output_path :=
    path_join (output_dir self) (workflow_name ++ "_radar") in
  ["agentic-radar"; "scan"; workflow_path; "--output"; output_path].

Definition run (self : t) (workflow_path : string)
  : IO run_result :=
  let workflow_name := path_stem workflow_path in
  let output_path :=
    path_join (output_dir self) (workflow_name ++ "_radar") in
  let cmd := command self workflow_path in
  IO.emit (Spawn cmd) >>
  match spawn cmd with
  | Exited returncode _ stderr =>
      if negb (returncode =? 0) then
        IO.ret (VList [], false, "Agentic Radar failed: " ++ stderr)
      else
        r <~ IO.try (_parse_output output_path workflow_name) ;;
        match r with
        | Ok findings => IO.ret (findings, true, "")
        | Raise e =>
            IO.ret (VList [], false,
                    "Agentic Radar execution error: " ++ exn_str e)
        end
  | TimedOut =>
      IO.ret (VList [], false, "Agentic Radar execution timed out")
  | ExeNotFound =>
      IO.ret (VList [], false, "Agentic Radar not found. Is it installed?")
  | SpawnError e =>
      IO.ret (VList [], false,
              "Agentic Radar execution error: " ++ exn_str e)
  end.
End WithWorld.
End AgenticRadarExecutor.

Module SemgrepExecutor.
Import Py.

(** The executor object: [self.rules_path]. *)
Record t : Type := { rules_path : string }.

Section WithWorld.
Context {R : Runtime} {W : World}.

(** [a.get(k1, {}).get(k2, default)]. *)
Definition get_nested (a : value) (k1 k2 : string) (default : value)
  : result value :=
  inner <- get_default a k1 (VDict []) ;;
  get_default inner k2 default.

(** The dict built for one entry of [results]. *)
Definition finding_of (entry : value) : result value :=
  rule_id <- get_default entry "check_id" (VStr "unknown") ;;
  extra <- get_default entry "extra" (VDict []) ;;
  top_message <- get_default entry "message" (VStr "") ;;
  message <- get_default extra "message" top_message ;;
  severity <- get_nested entry "extra" "severity" (VStr "WARNING") ;;
  path <- get_default entry "path" (VStr "") ;;
  line <- get_nested entry "start" "line" (VInt 0) ;;
  code <- get_nested entry "extra" "lines" (VStr "") ;;
  meta <- get_nested entry "extra" "metadata" (VDict []) ;;
  Ok (VDict [ (VStr "tool", VStr "semgrep");
              (VStr "rule_id", rule_id);
              (VStr "message", message);
              (VStr "severity", severity);
              (VStr "path", path);
              (VStr "line", line);
              (VStr "code", code);
              (VStr "metadata", meta) ]).

Fixpoint findings_of (entries : list value) : result (list value) :=
  match entries with
  | [] => Ok []
  | entry :: rest =>
      f <- finding_of entry ;;
      fs <- findings_of rest ;;
      Ok (f :: fs)
  end.

Definition _parse_output (stdout : string) : IO value :=
  match json_loads stdout with
  | ReadOk data =>
      IO.lift
        (has <- contains_str data "results" ;;
         if has then
           results <- getitem_str data "results" ;;
           entries <- iter results ;;
           fs <- findings_of entries ;;
           Ok (VList fs)
         else Ok (VList []))
  | ReadDecodeError msg =>
      IO.eprint ("Warning: Could not parse Semgrep JSON: " ++ msg)
      >> IO.ret (VList [])
  | ReadIOError _ => IO.raise (OtherError "OSError")
  | ReadOtherError e => IO.raise e
  end.

Definition command (self : t) (workflow_path : string)
  : list string :=
  ["semgrep"; "--config"; rules_path self; "--json"; workflow_path].

Definition run (self : t) (workflow_path : string)
  : IO run_result :=
  if negb (path_exists (rules_path self)) then
    IO.ret (VList [], false,
            "Semgrep rules not found: " ++ rules_path self)
  else
    let cmd := command self workflow_path in
    IO.emit (Spawn cmd) >>
    match spawn cmd with
    | Exited returncode stdout stderr =>
        if negb ((returncode =? 0) || (returncode =? 1)) then
          IO.ret (VList [], false, "Semgrep failed: " ++ stderr)
        else
          r <~ IO.try (_parse_output stdout) ;;
          match r with
          | Ok findings => IO.ret (findings, true, "")
          | Raise e =>
              IO.ret (VList [], false,
                      "Semgrep execution error: " ++ exn_str e)
          end
    | TimedOut => IO.ret (VList [], false, "Semgrep execution timed out")
    | ExeNotFound =>
        IO.ret (VList [], false, "Semgrep not found. Is it installed?")
    | SpawnError e =>
        IO.ret (VList [], false, "Semgrep execution error: " ++ exn_str e)
    end.
End WithWorld.
End SemgrepExecutor.

(** ** Component B: the orchestrator *)

Record AnalysisResult : Type := {
  workflow_path : string;
  metadata : WorkflowMetadata;
  agentic_radar_findings : value;
  semgrep_findings : value;
  total_findings : Z;
  execution_time : spec_float;
  timestamp : string
}.

Module HybridAnalyzer.
Import Py.

Record t : Type := {
  agentic_executor : AgenticRadarExecutor.t;
  semgrep_executor : SemgrepExecutor.t
}.

Section WithWorld.
Context {R : Runtime} {W : World}.

(** The [if not success: ... else: ...] block that follows each
    adapter call; [tool] is the adapter's display name. *)
Definition settle (tool : string) (r : run_result) : IO value :=
  let '(findings, success, error) := r in
  if negb success then
    IO.print ("[!] " ++ tool ++ " error: " ++ error) >> IO.ret (VList [])
  else
    n <~ IO.lift (len findings) ;;
    IO.print ("[+] " ++ tool ++ " completed: " ++ str_of_Z n
              ++ " findings")
    >> IO.ret findings.

Definition analyze (self : t) (path : string)
  : IO (option AnalysisResult) :=
  start_time <~ IO.datetime_now ;;
  IO.print (nl ++ "[*] Loading workflow: " ++ path) >>
  loaded <~ IO.lift (WorkflowValidator.load_workflow path) ;;
  let '(workflow, validation) := loaded in
  if negb (valid validation) then
    IO.print ("[!] Validation failed for " ++ path ++ ":") >>
    IO.for_each (errors validation)
      (fun error => IO.print ("    ERROR: " ++ error)) >>
    IO.ret None
  else
    (match warnings validation with
     | [] => IO.ret tt
     | ws =>
         IO.print "[!] Validation warnings:" >>
         IO.for_each ws
           (fun warning => IO.print ("    WARNING: " ++ warning))
     end) >>
    md <~ IO.lift (WorkflowValidator.extract_metadata workflow path) ;;
    IO.print "[*] Workflow metadata:" >>
    IO.print ("    Name: " ++ py_str (workflow_name md)) >>
    IO.print ("    ID: " ++ py_str (workflow_id md)) >>
    IO.print ("    Nodes: " ++ str_of_Z (node_count md)) >>
    IO.print ("    Node types: "
              ++ str_of_nat (List.length (node_types md))) >>
    IO.print (nl ++ "[*] Running Agentic Radar analysis...") >>
    radar <~ AgenticRadarExecutor.run (agentic_executor self) path ;;
    radar_findings <~ settle "Agentic Radar" radar ;;
    IO.print (nl ++ "[*] Running Semgrep analysis...") >>
    semgrep <~ SemgrepExecutor.run (semgrep_executor self) path ;;
    semgrep_findings <~ settle "Semgrep" semgrep ;;
    end_time <~ IO.datetime_now ;;
    let elapsed := total_seconds start_time end_time in
    n_radar <~ IO.lift (len radar_findings) ;;
    n_semgrep <~ IO.lift (len semgrep_findings) ;;
    stamp <~ IO.datetime_now ;;
    IO.ret (Some {| workflow_path := path;
                    metadata := md;
                    agentic_radar_findings := radar_findings;
                    semgrep_findings := semgrep_findings;
                    total_findings := n_radar + n_semgrep;
                    execution_time := elapsed;
                    timestamp := isoformat stamp |}).

(** The loop [for workflow_file in workflow_files] with its
    accumulator [results]. *)
Fixpoint analyze_each (self : t) (files : list string)
    (results : list AnalysisResult) : IO (list AnalysisResult) :=
  match files with
  | [] => IO.ret results
  | workflow_file :: rest =>
      r <~ analyze self workflow_file ;;
      match r with
      | Some record => analyze_each self rest (results ++ [record])
      | None => analyze_each self rest results
      end
  end.

Definition analyze_batch (self : t) (directory : string)
  : IO (list AnalysisResult) :=
  let workflow_files :=
    WorkflowValidator.scan_directory directory "*.json" in
  IO.print ("[*] Found " ++ str_of_nat (List.length workflow_files)
            ++ " workflow files in " ++ directory) >>
  analyze_each self workflow_files [].
End WithWorld.
End HybridAnalyzer.

(** ** Report generation *)

Section Reports.
Context {R : Runtime} {W : World}.
Import Py.

(** [open(path, 'w', encoding='utf-8')]. *)
Definition open_w (path : string) : IO unit :=
  if writable path then IO.emit (OpenW path)
  else IO.raise (OtherError "OSError").

(** The dict appended to [report_data] for one result. *)
Definition report_entry (result : AnalysisResult) : value :=
  VDict
    [ (VStr "workflow_path", VStr (workflow_path result));
      (VStr "workflow_name", workflow_name (metadata result));
      (VStr "workflow_id", workflow_id (metadata result));
      (VStr "node_count", VInt (node_count (metadata result)));
      (VStr "node_types",
       VDict (map (fun kc => (fst kc, VInt (snd kc)))
                (node_types (metadata result))));
      (VStr "analysis",
       VDict
         [ (VStr "agentic_radar_findings", agentic_radar_findings result);
           (VStr "semgrep_findings", semgrep_findings result);
           (VStr "total_findings", VInt (total_findings result));
           (VStr "execution_time", VFloat (execution_time result));
           (VStr "timestamp", VStr (timestamp result)) ]) ].

Definition generate_json_report (results : list AnalysisResult)
    (output_path : string) : IO unit :=
  let report_data := VList (map report_entry results) in
  open_w output_path >>
  IO.emit (Write output_path (json_dumps report_data)) >>
  IO.print (nl ++ "[+] JSON report saved to: " ++ output_path).

(** [sum(len(v) for v in vs)]. *)
Fixpoint sum_len (vs : list value) : result Z :=
  match vs with
  | [] => Ok 0
  | v :: rest =>
      n <- len v ;;
      m <- sum_len rest ;;
      Ok (n + m)
  end.

Definition radar_line (finding : value) : result string :=
  ty <- get_default finding "type" (VStr "Unknown") ;;
  message <- get_default finding "message" (VStr "") ;;
  Ok ("- **" ++ py_str ty ++ "**: " ++ py_str message ++ nl).

Definition semgrep_line (finding : value) : result string :=
  severity <- get_default finding "severity" (VStr "UNKNOWN") ;;
  rule <- get_default finding "rule_id" (VStr "unknown") ;;
  message <- get_default finding "message" (VStr "") ;;
  line <- get_default finding "line" (VInt 0) ;;
  Ok ("- **[" ++ py_str severity ++ "]** " ++ py_str rule ++ " (line "
      ++ py_str line ++ "): " ++ py_str message ++ nl).

(** One [### ... Findings (n)] block. *)
Definition findings_section (out title : string) (findings : value)
    (render : value -> result string) : IO unit :=
  n <~ IO.lift (len findings) ;;
  IO.emit (Write out ("### " ++ title ++ " Findings (" ++ str_of_Z n ++ ")"
                      ++ nl ++ nl)) >>
  (if truthy findings then
     items <~ IO.lift (iter findings) ;;
     IO.for_each items
       (fun finding =>
          text <~ IO.lift (render finding) ;;
          IO.emit (Write out text))
   else IO.emit (Write out ("No findings." ++ nl))) >>
  IO.emit (Write out nl).

(** The loop [for idx, result in enumerate(results, 1)]. *)
Fixpoint workflow_sections (out : string) (idx : nat)
    (results : list AnalysisResult) : IO unit :=
  match results with
  | [] => IO.ret tt
  | result :: rest =>
      let md := metadata result in
      IO.emit (Write out ("## Workflow " ++ str_of_nat idx ++ ": "
                          ++ py_str (workflow_name md) ++ nl ++ nl)) >>
      IO.emit (Write out ("**Path:** `" ++ workflow_path result ++ "`"
                          ++ nl ++ nl)) >>
      IO.emit (Write out ("**Metadata:**" ++ nl)) >>
      IO.emit (Write out ("- Workflow ID: " ++ py_str (workflow_id md)
                          ++ nl)) >>
      IO.emit (Write out ("- Node count: " ++ str_of_Z (node_count md)
                          ++ nl)) >>
      IO.emit (Write out ("- Execution time: "
                          ++ format_2f (execution_time result) ++ "s"
                          ++ nl ++ nl)) >>
      findings_section out "Agentic Radar" (agentic_radar_findings result)
        radar_line >>
      findings_section out "Semgrep" (semgrep_findings result)
        semgrep_line >>
      IO.emit (Write out ("---" ++ nl ++ nl)) >>
      workflow_sections out (S idx) rest
  end.

Definition generate_markdown_report (results : list AnalysisResult)
    (output_path : string) : IO unit :=
  open_w output_path >>
  IO.emit (Write output_path
             ("# n8n Workflow Security Analysis Report" ++ nl ++ nl)) >>
  generated <~ IO.datetime_now ;;
  IO.emit (Write output_path
             ("**Generated:** " ++ strftime_ymd_hms generated
              ++ nl ++ nl)) >>
  IO.emit (Write output_path
             ("**Total workflows analyzed:** "
              ++ str_of_nat (List.length results) ++ nl ++ nl)) >>
  let total := fold_left Z.add (map total_findings results) 0 in
  total_radar <~ IO.lift (sum_len (map agentic_radar_findings results)) ;;
  total_semgrep <~ IO.lift (sum_len (map semgrep_findings results)) ;;
  IO.emit (Write output_path ("## Summary" ++ nl ++ nl)) >>
  IO.emit (Write output_path
             ("- Total findings: " ++ str_of_Z total ++ nl)) >>
  IO.emit (Write output_path
             ("- Agentic Radar findings: " ++ str_of_Z total_radar ++ nl)) >>
  IO.emit (Write output_path
             ("- Semgrep findings: " ++ str_of_Z total_semgrep
              ++ nl ++ nl)) >>
  workflow_sections output_path 1 results >>
  IO.print ("[+] Markdown report saved to: " ++ output_path).

(** The content of the file [path] after the events of a run: opening
    for writing truncates, each write appends. *)
Definition file_after (path : string) (content : string) (e : event)
  : string :=
  match e with
  | OpenW p => if (p =? path)%string then "" else content
  | Write p text =>
      if (p =? path)%string then content ++ text else content
  | _ => content
  end.

Definition written (path : string) (events : list event) : string :=
  fold_left (file_after path) events "".
End Reports.

(** ** Vocabulary of the properties *)

Module Spec.
Import Py.

(** The [nodes] sequence of a document ([[]] when there is none). *)
Definition nodes_of (workflow : value) : list value :=
  match workflow with
  | VDict d =>
      match get_str d "nodes" with
      | Some (VList l) => l
      | _ => []
      end
  | _ => []
  end.

(** A node that is a record holding [id], [name] and [type]. *)
Definition complete_node (node : value) : bool :=
  match node with
  | VDict d => has_str d "id" && has_str d "name" && has_str d "type"
  | _ => false
  end.

(** Sum of the values of a counting dict. *)
Definition sum_counts (counts : list (value * Z)) : Z :=
  fold_right Z.add 0 (dict_values counts).

(** Number of entries of a value that is a mapping. *)
Definition entry_count (v : value) : Z :=
  match v with
  | VDict d => Z.of_nat (List.length d)
  | _ => 0
  end.

(** The connection count as the specification words it: the sum of the
    entry counts over exactly those values of the mapping that are
    themselves mappings. *)
Definition connections_sum (connections : list (value * value)) : Z :=
  fold_right Z.add 0
    (map entry_count (filter is_dict (dict_values connections))).

(** An outcome all of whose fields agree: valid exactly when there is no
    error. *)
Definition coherent (r : ValidationResult) : Prop :=
  valid r = true <-> errors r = [].

(** Exit codes an adapter accepts: 0 for the radar tool, 0 or 1 for the
    pattern scanner. *)
Definition radar_allowed (returncode : Z) : bool := returncode =? 0.
Definition semgrep_allowed (returncode : Z) : bool :=
  (returncode =? 0) || (returncode =? 1).

(** The three failures of a subprocess the adapters tell apart. *)
Inductive failure_kind : Type := Timeout | NotFound | BadExit.

Definition failure_of (allowed : Z -> bool) (o : proc_outcome)
  : option failure_kind :=
  match o with
  | TimedOut => Some Timeout
  | ExeNotFound => Some NotFound
  | Exited returncode _ _ =>
      if allowed returncode then None else Some BadExit
  | SpawnError _ => None
  end.

(** The error message of a failed subprocess, for the adapter whose
    display name is [tool]. *)
Definition failure_message (tool : string) (o : proc_outcome) : string :=
  match o with
  | TimedOut => tool ++ " execution timed out"
  | ExeNotFound => tool ++ " not found. Is it installed?"
  | Exited _ _ stderr => tool ++ " failed: " ++ stderr
  | SpawnError _ => tool ++ " execution error"
  end.

Section WithWorld.
Context {W : World}.

(** The validation outcomes the validator hands out. *)
Inductive produced : ValidationResult -> Prop :=
| produced_validate workflow r :
    WorkflowValidator.validate_structure workflow = Ok r -> produced r
| produced_load path doc r :
    WorkflowValidator.load_workflow path = Ok (doc, r) -> produced r.


(** The file-level failures: nothing could be parsed. *)
Definition file_level_failure (path : string) : Prop :=
  path_exists path = false
  \/ path_isfile path = false
  \/ (exists msg, read_json path = ReadDecodeError msg)
  \/ (exists msg, read_json path = ReadIOError msg).
End WithWorld.

End Spec.

(** ** Sample inputs *)

Module Sample.

Definition str_entry (k : string) (v : value) : value * value := (VStr k, v).

Definition node (id name type : string) : value :=
  VDict [ str_entry "id" (VStr id); str_entry "name" (VStr name);
          str_entry "type" (VStr type) ].

(** [{"nodes":[{"id":"1","name":"A","type":"http"},
               {"id":"2","name":"B","type":"http"}],
      "connections":{"1":{"main":[["2"]]}}}] *)
Definition doc_two_http : value :=
  VDict [ str_entry "nodes" (VList [node "1" "A" "http"; node "2" "B" "http"]);
          str_entry "connections"
            (VDict [ str_entry "1"
                       (VDict [ str_entry "main"
                                  (VList [VList [VStr "2"]]) ]) ]) ].

(** [{"nodes":[1]}] *)
Definition doc_scalar_node : value :=
  VDict [ str_entry "nodes" (VList [VInt 1]) ].

Definition outcome_scalar_node : ValidationResult :=
  {| valid := true;
     errors := [];
     warnings := [ "Node at index 0 is not an object";
                   "Workflow has no 'connections' field" ] |}.

(** [{"nodes":[],"connections":[]}] *)
Definition doc_list_connections : value :=
  VDict [ str_entry "nodes" (VList []); str_entry "connections" (VList []) ].

Definition outcome_list_connections : ValidationResult :=
  {| valid := true;
     errors := [];
     warnings := [ "Field 'connections' should be an object" ] |}.

(** [{}] *)
Definition doc_empty : value := VDict [].

Definition outcome_empty : ValidationResult :=
  {| valid := false;
     errors := [ "Missing required field: 'nodes'" ];
     warnings := [ "Workflow has no 'connections' field" ] |}.

(** A directory [flows] holding [flows/ok.json] (the two-node document)
    and [flows/empty.json] (the document [{}]); no external tool is
    installed. *)
Definition world_flows : World :=
  {| path_exists p :=
       ((p =? "flows") || (p =? "flows/ok.json")
        || (p =? "flows/empty.json"))%string;
     path_isfile p :=
       ((p =? "flows/ok.json") || (p =? "flows/empty.json"))%string;
     path_isdir p := (p =? "flows")%string;
     read_json p :=
       if (p =? "flows/ok.json")%string then ReadOk doc_two_http
       else if (p =? "flows/empty.json")%string then ReadOk doc_empty
       else ReadIOError "No such file or directory";
     glob d pat :=
       if ((d =? "flows") && (pat =? "*.json"))%string
       then ["flows/ok.json"; "flows/empty.json"] else [];
     spawn _ := ExeNotFound;
     writable _ := true;
     now n := {| year := 2024; month := 1; day := 1; hour := 12;
                 minute := 0; second := n; microsecond := 0 |} |}.

(** The pattern scanner's report of one match, as text and parsed. *)
Definition semgrep_stdout : string :=
  "{'results': [{'check_id': 'n8n-sqli', 'path': 'flows/ok.json'}]}".

Definition semgrep_report : value :=
  VDict [ str_entry "results"
            (VList [ VDict [ str_entry "check_id" (VStr "n8n-sqli");
                             str_entry "path" (VStr "flows/ok.json") ] ]) ].

Definition semgrep_finding : value :=
  VDict [ str_entry "tool" (VStr "semgrep");
          str_entry "rule_id" (VStr "n8n-sqli");
          str_entry "message" (VStr "");
          str_entry "severity" (VStr "WARNING");
          str_entry "path" (VStr "flows/ok.json");
          str_entry "line" (VInt 0);
          str_entry "code" (VStr "");
          str_entry "metadata" (VDict []) ].

(** The directory [flows] again, with the rules file in place, a radar
    tool that times out and a pattern scanner that reports one match. *)
Definition world_radar_timeout : World :=
  {| path_exists p :=
       ((p =? "flows") || (p =? "flows/ok.json")
        || (p =? "flows/empty.json")
        || (p =? "rules/n8n-generic-patterns.yaml"))%string;
     path_isfile p :=
       ((p =? "flows/ok.json") || (p =? "flows/empty.json")
        || (p =? "rules/n8n-generic-patterns.yaml"))%string;
     path_isdir p := (p =? "flows")%string;
     read_json p :=
       if (p =? "flows/ok.json")%string then ReadOk doc_two_http
       else if (p =? "flows/empty.json")%string then ReadOk doc_empty
       else ReadIOError "No such file or directory";
     glob d pat :=
       if ((d =? "flows") && (pat =? "*.json"))%string
       then ["flows/ok.json"; "flows/empty.json"] else [];
     spawn cmd :=
       match cmd with
       | exe :: _ =>
           if (exe =? "agentic-radar")%string then TimedOut
           else if (exe =? "semgrep")%string
                then Exited 1 semgrep_stdout ""
                else ExeNotFound
       | [] => ExeNotFound
       end;
     writable _ := true;
     now n := {| year := 2024; month := 1; day := 1; hour := 12;
                 minute := 0; second := n; microsecond := 0 |} |}.

(** A directory [flows] holding only [flows/bad.json], the document
    [{"nodes":[1]}]. *)
Definition world_scalar_node : World :=
  {| path_exists p := ((p =? "flows") || (p =? "flows/bad.json"))%string;
     path_isfile p := (p =? "flows/bad.json")%string;
     path_isdir p := (p =? "flows")%string;
     read_json p :=
       if (p =? "flows/bad.json")%string then ReadOk doc_scalar_node
       else ReadIOError "No such file or directory";
     glob d pat :=
       if ((d =? "flows") && (pat =? "*.json"))%string
       then ["flows/bad.json"] else [];
     spawn _ := ExeNotFound;
     writable _ := true;
     now n := {| year := 2024; month := 1; day := 1; hour := 12;
                 minute := 0; second := n; microsecond := 0 |} |}.


(** The radar tool ran on [flows/ok.json] and left
    [analysis_output/ok_radar/ok.json] holding one finding. *)
Definition radar_finding : value :=
  VDict [ str_entry "type" (VStr "prompt_injection");
          str_entry "message" (VStr "unsanitised user input") ].

Definition world_radar_findings : World :=
  {| path_exists p := (p =? "analysis_output/ok_radar/ok.json")%string;
     path_isfile p := (p =? "analysis_output/ok_radar/ok.json")%string;
     path_isdir _ := false;
     read_json p :=
       if (p =? "analysis_output/ok_radar/ok.json")%string
       then ReadOk (VDict [ str_entry "findings" (VList [radar_finding]) ])
       else ReadIOError "No such file or directory";
     glob _ _ := [];
     spawn _ := Exited 0 "" "";
     writable _ := true;
     now n := {| year := 2024; month := 1; day := 1; hour := 12;
                 minute := 0; second := n; microsecond := 0 |} |}.

(** The radar tool ran on [flows/ok.json] and left an artifact whose
    [findings] is an empty mapping, next to an HTML report. *)
Definition world_radar_empty_mapping : World :=
  {| path_exists p :=
       ((p =? "analysis_output/ok_radar/ok.json")
        || (p =? "analysis_output/ok_radar/ok.html"))%string;
     path_isfile p :=
       ((p =? "analysis_output/ok_radar/ok.json")
        || (p =? "analysis_output/ok_radar/ok.html"))%string;
     path_isdir _ := false;
     read_json p :=
       if (p =? "analysis_output/ok_radar/ok.json")%string
       then ReadOk (VDict [ str_entry "findings" (VDict []) ])
       else ReadIOError "No such file or directory";
     glob _ _ := [];
     spawn _ := Exited 0 "" "";
     writable _ := true;
     now n := {| year := 2024; month := 1; day := 1; hour := 12;
                 minute := 0; second := n; microsecond := 0 |} |}.

(** The directory [flows] on a host where no file can be opened for
    writing. *)
Definition world_read_only : World :=
  {| path_exists := path_exists (World := world_flows);
     path_isfile := path_isfile (World := world_flows);
     path_isdir := path_isdir (World := world_flows);
     read_json := read_json (World := world_flows);
     glob := glob (World := world_flows);
     spawn := spawn (World := world_flows);
     writable _ := false;
     now := now (World := world_flows) |}.

(** A host where every path exists and every tool exits with code 1
    after printing a crash message instead of JSON. *)
Definition world_tool_crash : World :=
  {| path_exists _ := true;
     path_isfile _ := true;
     path_isdir _ := false;
     read_json _ := ReadIOError "Permission denied";
     glob _ _ := [];
     spawn _ := Exited 1 "Segmentation fault" "";
     writable _ := true;
     now n := {| year := 2024; month := 1; day := 1; hour := 12;
                 minute := 0; second := n; microsecond := 0 |} |}.

(** A runtime for the sample runs: paths are joined with a slash, the
    stem of the two sample files is known, and the JSON codec knows the
    empty containers and the sample report. *)
Definition runtime : Runtime :=
  {| repr v := match v with
               | VInt z => Py.str_of_Z z
               | VNone => "None"
               | VBool true => "True"
               | VBool false => "False"
               | _ => "<object>"
               end;
     exn_str _ := "error";
     json_loads s :=
       if (s =? "[]")%string then ReadOk (VList [])
       else if (s =? "{}")%string then ReadOk (VDict [])
       else if (s =? semgrep_stdout)%string then ReadOk semgrep_report
       else ReadDecodeError "Expecting value: line 1 column 1 (char 0)";
     json_dumps v := match v with VList [] => "[]" | _ => "[...]" end;
     path_stem p :=
       if (p =? "flows/ok.json")%string then "ok"
       else if (p =? "flows/empty.json")%string then "empty"
       else p;
     path_join a b := a ++ "/" ++ b;
     total_seconds _ _ := S754_zero false;
     isoformat d :=
       pad4 (year d) ++ "-" ++ pad2 (month d) ++ "-" ++ pad2 (day d)
       ++ "T" ++ pad2 (hour d) ++ ":" ++ pad2 (minute d) ++ ":"
       ++ pad2 (second d);
     format_2f _ := "0.00" |}.

Definition analyzer : HybridAnalyzer.t :=
  {| HybridAnalyzer.agentic_executor :=
       {| AgenticRadarExecutor.output_dir := "analysis_output" |};
     HybridAnalyzer.semgrep_executor :=
       {| SemgrepExecutor.rules_path := "rules/n8n-generic-patterns.yaml" |}
  |}.

End Sample.

(** ** Command line

    [main] after [args = parser.parse_args()]: the namespace [args] is its
    input.  The two [parser.error] checks and the choice between batch and
    single mode are written as one case analysis on which of
    [args.workflow] and [args.batch] is given; [parser.error] ends the run
    with [SystemExit]. *)

Module Cli.
Import Py.

(** [choices=['json', 'markdown', 'both']]. *)
Inductive report_format : Type := Json | Markdown | Both.

Record Args : Type := {
  workflow : option string;
  batch : option string;
  output : string;
  rules : string;
  format : report_format;
  report : option string
}.

Class Shell : Type := {
  usage_error : string -> string;
    (* what parser.error(message) prints on the error stream *)
  mkdir_p : string -> option exn;
    (* Path(p).mkdir(parents=True, exist_ok=True): what it raises, if
       anything *)
  float_sum : list spec_float -> spec_float
    (* sum(xs) over floats *)
}.

(** An optional string as a condition: [None] and [""] count as absent. *)
Definition given (o : option string) : option string :=
  match o with
  | Some s => if (s =? "")%string then None else Some s
  | None => None
  end.

(** [o or default]. *)
Definition or_default (o : option string) (default : string) : string :=
  match given o with
  | Some s => s
  | None => default
  end.

Section WithShell.
Context {R : Runtime} {W : World} {Sh : Shell}.

(** [AgenticRadarExecutor.__init__]. *)
Definition radar_init (output_dir : option string)
  : IO AgenticRadarExecutor.t :=
  let dir := or_default output_dir "analysis_output" in
  match mkdir_p dir with
  | None => IO.ret {| AgenticRadarExecutor.output_dir := dir |}
  | Some e => IO.raise e
  end.

(** [SemgrepExecutor.__init__]. *)
Definition semgrep_init (rules_path : option string) : SemgrepExecutor.t :=
  {| SemgrepExecutor.rules_path :=
       or_default rules_path "rules/n8n-generic-patterns.yaml" |}.

(** [HybridAnalyzer.__init__]. *)
Definition analyzer_init (agentic_output_dir semgrep_rules : option string)
  : IO HybridAnalyzer.t :=
  radar <~ radar_init agentic_output_dir ;;
  IO.ret {| HybridAnalyzer.agentic_executor := radar;
            HybridAnalyzer.semgrep_executor := semgrep_init semgrep_rules |}.

(** [parser.error(message)]. *)
Definition parser_error {A : Type} (message : string) : IO A :=
  IO.eprint (usage_error message) >> IO.raise (OtherError "SystemExit").

Fixpoint repeat_string (s : string) (n : nat) : string :=
  match n with
  | O => ""
  | S n' => s ++ repeat_string s n'
  end.

(** ["=" * 70]. *)
Definition rule : string := repeat_string "=" 70.

(** [d.strftime('%Y%m%d_%H%M%S')]. *)
Definition strftime_compact (d : datetime) : string :=
  pad4 (year d) ++ pad2 (month d) ++ pad2 (day d) ++ "_"
  ++ pad2 (hour d) ++ pad2 (minute d) ++ pad2 (second d).

Definition wants_json (f : report_format) : bool :=
  match f with Json | Both => true | Markdown => false end.

Definition wants_markdown (f : report_format) : bool :=
  match f with Markdown | Both => true | Json => false end.

(** [args.report if args.report and args.format == 'json' else
     f"{args.output}/report_{timestamp}.json"]. *)
Definition json_path (args : Args) (timestamp : string) : string :=
  match given (report args), format args with
  | Some p, Json => p
  | _, _ => output args ++ "/report_" ++ timestamp ++ ".json"
  end.

Definition md_path (args : Args) (timestamp : string) : string :=
  match given (report args), format args with
  | Some p, Markdown => p
  | _, _ => output args ++ "/report_" ++ timestamp ++ ".md"
  end.

(** [sum(r.execution_time for r in results) / len(results)]. *)
Definition average (times : list spec_float) (n : nat) : spec_float :=
  SFdiv 53 1024 (float_sum times)
    (binary_normalize 53 1024 (Z.of_nat n) 0 false).

(** [main] from [if not results:] on. *)
Definition report_results (args : Args) (results : list AnalysisResult)
  : IO Z :=
  match results with
  | [] =>
      IO.print (nl ++ "[!] No successful analyses to report") >> IO.ret 1
  | _ =>
      IO.print (nl ++ rule) >>
      IO.print "ANALYSIS COMPLETE" >>
      IO.print rule >>
      stamp <~ IO.datetime_now ;;
      let timestamp := strftime_compact stamp in
      (if wants_json (format args)
       then generate_json_report results (json_path args timestamp)
       else IO.ret tt) >>
      (if wants_markdown (format args)
       then generate_markdown_report results (md_path args timestamp)
       else IO.ret tt) >>
      IO.print (nl ++ rule) >>
      IO.print "SUMMARY" >>
      IO.print rule >>
      IO.print ("Workflows analyzed: "
                ++ str_of_nat (List.length results)) >>
      IO.print ("Total findings: "
                ++ str_of_Z (fold_left Z.add (map total_findings results) 0)) >>
      IO.print ("Average execution time: "
                ++ format_2f (average (map execution_time results)
                                (List.length results))
                ++ "s") >>
      IO.ret 0
  end.

Definition main (args : Args) : IO Z :=
  match given (workflow args), given (batch args) with
  | None, None =>
      parser_error
        "Either workflow file or --batch directory must be specified"
  | Some _, Some _ =>
      parser_error "Cannot specify both workflow file and --batch directory"
  | None, Some directory =>
      analyzer <~ analyzer_init (Some (output args)) (Some (rules args)) ;;
      results <~ HybridAnalyzer.analyze_batch analyzer directory ;;
      report_results args results
  | Some path, None =>
      analyzer <~ analyzer_init (Some (output args)) (Some (rules args)) ;;
      result <~ HybridAnalyzer.analyze analyzer path ;;
      report_results args
        (match result with Some record => [record] | None => [] end)
  end.
End WithShell.

(** The report files a run may write, given the timestamp it read. *)
Definition report_paths (args : Args) (timestamp : string) : list string :=
  ((if wants_json (format args) then [json_path args timestamp] else [])
   ++ (if wants_markdown (format args) then [md_path args timestamp]
       else []))%list.

(** The file events of a run stay within [paths]. *)
Definition writes_within (paths : list string) (e : event) : bool :=
  match e with
  | OpenW q | Write q _ => existsb (String.eqb q) paths
  | _ => true
  end.

End Cli.

Module SampleCli.

Definition shell : Cli.Shell :=
  {| Cli.usage_error message := "error: " ++ message;
     Cli.mkdir_p _ := None;
     Cli.float_sum _ := S754_zero false |}.

(** [workflow_analyzer.py --batch flows --format both --report mine.json] *)
Definition batch_both : Cli.Args :=
  {| Cli.workflow := None;
     Cli.batch := Some "flows";
     Cli.output := "analysis_output";
     Cli.rules := "rules/n8n-generic-patterns.yaml";
     Cli.format := Cli.Both;
     Cli.report := Some "mine.json" |}.

(** [workflow_analyzer.py flows/empty.json] *)
Definition single_rejected : Cli.Args :=
  {| Cli.workflow := Some "flows/empty.json";
     Cli.batch := None;
     Cli.output := "analysis_output";
     Cli.rules := "rules/n8n-generic-patterns.yaml";
     Cli.format := Cli.Markdown;
     Cli.report := None |}.

(** [workflow_analyzer.py] with neither a workflow nor [--batch]. *)
Definition nothing_given : Cli.Args :=
  {| Cli.workflow := None;
     Cli.batch := None;
     Cli.output := "analysis_output";
     Cli.rules := "rules/n8n-generic-patterns.yaml";
     Cli.format := Cli.Markdown;
     Cli.report := None |}.

End SampleCli.

(** ** Vocabulary of the further properties *)

Module Shape.
Import Py.

(** The required fields a record node lacks. *)
Definition missing_fields (d : list (value * value)) : list string :=
  filter (fun field => negb (has_str d field))
    WorkflowValidator.required_node_fields.

(** The number of warnings one node earns: one when it is not a record,
    one per missing required field when it is. *)
Definition node_warnings (node : value) : nat :=
  match node with
  | VDict d => List.length (missing_fields d)
  | _ => 1%nat
  end.

(** One warning when [connections] is absent or is not a mapping. *)
Definition connections_warnings (items : list (value * value)) : nat :=
  match get_str items "connections" with
  | Some (VDict _) => 0%nat
  | _ => 1%nat
  end.

(** The value counted for a record node: its [type], or ["unknown"]. *)
Definition node_type (node : value) : value :=
  match node with
  | VDict d =>
      match get_str d "type" with
      | Some t => t
      | None => VStr "unknown"
      end
  | _ => VNone
  end.

(** A record node whose [type] can be a dict key. *)
Definition countable_node (node : value) : bool :=
  match node with
  | VDict _ => hashable (node_type node)
  | _ => false
  end.

(** A record node whose [type], when present, is a string. *)
Definition string_typed_node (node : value) : bool :=
  match node with
  | VDict _ => match node_type node with VStr _ => true | _ => false end
  | _ => false
  end.

Definition has_type (t : string) (node : value) : bool :=
  key_eqb (node_type node) (VStr t).

(** All keys of a counting dict are strings. *)
Definition string_keys (d : list (value * Z)) : Prop :=
  Forall (fun kv => exists s, fst kv = VStr s) d.

(** [connections] is absent or is a mapping. *)
Definition connections_usable (items : list (value * value)) : bool :=
  match get_str items "connections" with
  | Some (VDict _) | None => true
  | Some _ => false
  end.

(** [l] is [m] with some elements left out, the order kept. *)
Inductive subseq {A : Type} : list A -> list A -> Prop :=
| subseq_nil : subseq [] []
| subseq_skip x l m : subseq l m -> subseq l (x :: m)
| subseq_keep x l m : subseq l m -> subseq (x :: l) (x :: m).

(** An event that writes no file. *)
Definition console_or_spawn (e : event) : bool :=
  match e with
  | Stdout _ | Stderr _ | Spawn _ => true
  | OpenW _ | Write _ _ => false
  end.

(** An event of an emitter that touches no file but [path] and starts no
    process. *)
Definition touches_only (path : string) (e : event) : bool :=
  match e with
  | OpenW q | Write q _ => (q =? path)%string
  | Stdout _ => true
  | Stderr _ | Spawn _ => false
  end.

(** A computation that only appends events satisfying [P] to the log and
    never turns the clock counter back. *)
Definition appends (P : event -> bool) {A : Type} (m : IO A) : Prop :=
  forall st, exists evs,
    log (snd (m st)) = (log st ++ evs)%list
    /\ forallb P evs = true
    /\ (ticks st <= ticks (snd (m st)))%nat.

(** A computation that never raises. *)
Definition returns {A : Type} (m : IO A) : Prop :=
  forall st, exists a st', m st = (Ok a, st').



End Shape.

(** * Properties *)

Section ValidatorFacts.
Import Py WorkflowValidator Spec.

Lemma check_node_fields_keeps idx node fields : forall r,
  valid (check_node_fields idx node fields r) = valid r
  /\ errors (check_node_fields idx node fields r) = errors r.
Proof.
  induction fields as [|f fs IH]; intros r; cbn [check_node_fields];
    [easy|].
  destruct (IH (if negb (has_str node f)
                then add_warning r ("Node at index " ++ str_of_nat idx
                                    ++ " missing field '" ++ f ++ "'")
                else r)) as [Hv He].
  rewrite Hv, He. destruct (has_str node f); cbn; easy.
Qed.

Lemma check_nodes_keeps nodes : forall idx r,
  valid (check_nodes idx nodes r) = valid r
  /\ errors (check_nodes idx nodes r) = errors r.
Proof.
  induction nodes as [|n ns IH]; intros idx r; cbn [check_nodes]; [easy|].
  destruct n;
    try (destruct (IH (S idx)
                     (add_warning r ("Node at index " ++ str_of_nat idx
                                     ++ " is not an object")))
           as [Hv He]; rewrite Hv, He; cbn; easy).
  destruct (IH (S idx) (check_node_fields idx d required_node_fields r))
    as [Hv He].
  rewrite Hv, He. apply check_node_fields_keeps.
Qed.

Lemma add_warning_coherent r msg : coherent r -> coherent (add_warning r msg).
Proof. unfold coherent; simpl; tauto. Qed.

(** The first half of [validate_structure] yields a coherent outcome. *)
Lemma nodes_phase_coherent (workflow : value) (has_nodes : bool) r :
  (if negb has_nodes then
     Ok (set_valid
           (add_error {| valid := true; errors := []; warnings := [] |}
              "Missing required field: 'nodes'") false)
   else
     nodes <- getitem_str workflow "nodes" ;;
     match nodes with
     | VList l =>
         Ok (check_nodes 0 l
               {| valid := true; errors := []; warnings := [] |})
     | _ =>
         Ok (set_valid
               (add_error {| valid := true; errors := []; warnings := [] |}
                  "Field 'nodes' must be an array") false)
     end) = Ok r ->
  coherent r.
Proof.
  unfold coherent.
  destruct has_nodes; simpl.
  - destruct (getitem_str workflow "nodes") as [nodes|e]; simpl;
      [|discriminate].
    destruct nodes; intros H; inversion H; subst; clear H; simpl;
      try (split; discriminate).
    destruct (check_nodes_keeps l 0
                {| valid := true; errors := []; warnings := [] |})
      as [Hv He].
    rewrite Hv, He; simpl; tauto.
  - intros H; inversion H; subst; simpl. split; discriminate.
Qed.

Lemma validate_structure_coherent workflow r :
  validate_structure workflow = Ok r -> coherent r.
Proof.
  unfold validate_structure.
  destruct (contains_str workflow "nodes") as [has_nodes|e]; simpl;
    [|discriminate].
  match goal with
  | |- Py.bind ?m _ = _ -> _ => destruct m as [r0|e] eqn:Hphase
  end; simpl; [|discriminate].
  apply nodes_phase_coherent in Hphase.
  destruct (contains_str workflow "connections") as [hc|e]; simpl;
    [|discriminate].
  destruct hc; simpl.
  - destruct (getitem_str workflow "connections") as [c|e]; simpl;
      [|discriminate].
    destruct (is_dict c); simpl; intros H; inversion H; subst;
      auto using add_warning_coherent.
  - intros H; inversion H; subst; auto using add_warning_coherent.
Qed.
End ValidatorFacts.

Section LoadFacts.
Import Py WorkflowValidator Spec.
Context {W : World}.

Lemma load_workflow_coherent path doc r :
  load_workflow path = Ok (doc, r) -> coherent r.
Proof.
  unfold load_workflow, coherent.
  destruct (path_exists path); cbn;
    [|intros H; inversion H; subst; cbn; split; discriminate].
  destruct (path_isfile path); cbn;
    [|intros H; inversion H; subst; cbn; split; discriminate].
  destruct (read_json path) as [wf|msg|msg|e];
    try (intros H; inversion H; subst; cbn; split; discriminate).
  destruct (validate_structure wf) as [v|e] eqn:Hv; cbn; [|discriminate].
  destruct (valid v) eqn:Hvalid; cbn; intros H; inversion H; subst; cbn.
  - tauto.
  - apply validate_structure_coherent in Hv. exact Hv.
Qed.

Lemma produced_coherent r : produced r -> coherent r.
Proof.
  intros [wf r' H | path doc r' H];
    eauto using validate_structure_coherent, load_workflow_coherent.
Qed.

Lemma load_workflow_none_inv path r :
  load_workflow path = Ok (VNone, r) -> file_level_failure path.
Proof.
  unfold load_workflow, file_level_failure.
  destruct (path_exists path); cbn; [|auto].
  destruct (path_isfile path); cbn; [|auto].
  destruct (read_json path) as [wf|msg|msg|e]; eauto 6; [|discriminate].
  destruct (validate_structure wf) as [v|e] eqn:Hv; cbn; [|discriminate].
  destruct (valid v); cbn; intros H; inversion H; subst;
    discriminate Hv.
Qed.

Lemma load_workflow_structural path doc r :
  path_exists path = true -> path_isfile path = true ->
  read_json path = ReadOk doc ->
  validate_structure doc = Ok r -> valid r = false ->
  load_workflow path = Ok (doc, r).
Proof.
  intros He Hf Hr Hv Hb. unfold load_workflow.
  rewrite He, Hf, Hr. cbn. rewrite Hv. cbn. rewrite Hb. reflexivity.
Qed.

End LoadFacts.

Section ValidatorClaims.
Import Py WorkflowValidator Spec.

(** C2.  Every validation outcome handed out by [load_workflow] or
    [validate_structure] is valid exactly when its error sequence is
    empty; two outcomes with the same errors carry the same flag
    whatever their warnings are. *)
Theorem outcome_valid_iff_no_errors {W : World} (r : ValidationResult) :
  produced r ->
  (valid r = true <-> errors r = [])
  /\ (forall r', produced r' -> errors r' = errors r -> valid r' = valid r).
Proof.
  intros Hr. pose proof (produced_coherent Hr) as C. split; [exact C|].
  intros r' Hr' He. pose proof (produced_coherent Hr') as C'.
  unfold coherent in C, C'. rewrite He in C'.
  destruct (valid r), (valid r'); try reflexivity.
  - apply (proj2 C'), (proj1 C). reflexivity.
  - symmetry. apply (proj2 C), (proj1 C'). reflexivity.
Qed.

Lemma outcome_valid_iff_no_errors_witness :
  (valid Sample.outcome_scalar_node = true
   <-> errors Sample.outcome_scalar_node = [])
  /\ (forall r', produced (W := Sample.world_flows) r' ->
                 errors r' = errors Sample.outcome_scalar_node ->
                 valid r' = valid Sample.outcome_scalar_node).
Proof.
  apply (@outcome_valid_iff_no_errors Sample.world_flows).
  apply (produced_validate Sample.doc_scalar_node). reflexivity.
Defined.

(** C10.  A file that exists, is a regular file and parses, but whose
    structure is rejected, comes back from [load_workflow] as the parsed
    document itself (never [None]) with the failing outcome; [None] is
    returned as the document only for the file-level failures. *)
Theorem load_workflow_keeps_rejected_document {W : World} (path : string) :
  (forall doc r,
      path_exists path = true -> path_isfile path = true ->
      read_json path = ReadOk doc ->
      validate_structure doc = Ok r -> valid r = false ->
      load_workflow path = Ok (doc, r) /\ doc <> VNone)
  /\ (forall r, load_workflow path = Ok (VNone, r) ->
                file_level_failure path).
Proof.
  split.
  - intros doc r He Hf Hr Hv Hb. split.
    + now apply load_workflow_structural.
    + intros ->. discriminate Hv.
  - apply load_workflow_none_inv.
Qed.

Lemma load_workflow_keeps_rejected_document_witness :
  load_workflow (W := Sample.world_flows) "flows/empty.json"
  = Ok (Sample.doc_empty, Sample.outcome_empty)
  /\ Sample.doc_empty <> VNone.
Proof.
  apply (proj1 (@load_workflow_keeps_rejected_document Sample.world_flows
                  "flows/empty.json"));
    reflexivity.
Defined.
End ValidatorClaims.

Section StructureFacts.
Import Py WorkflowValidator Spec.

Lemma check_node_fields_complete idx d r :
  complete_node (VDict d) = true ->
  check_node_fields idx d required_node_fields r = r.
Proof.
  unfold complete_node. intros H.
  apply andb_true_iff in H as [H Ht]. apply andb_true_iff in H as [Hi Hn].
  unfold required_node_fields. cbn [check_node_fields].
  rewrite Hi, Hn, Ht. reflexivity.
Qed.

Lemma check_nodes_complete nodes : forall idx r,
  forallb complete_node nodes = true -> check_nodes idx nodes r = r.
Proof.
  induction nodes as [|n ns IH]; intros idx r H; [reflexivity|].
  cbn [forallb] in H. apply andb_true_iff in H as [Hn Hns].
  destruct n; try discriminate Hn. cbn [check_nodes].
  rewrite (check_node_fields_complete idx d r Hn). now apply IH.
Qed.

Lemma has_str_of_get d k v : get_str d k = Some v -> has_str d k = true.
Proof. unfold has_str. now intros ->. Qed.

(** A document accepted by validation is a mapping whose [nodes] entry is
    a sequence. *)
Lemma valid_document_inv workflow r :
  validate_structure workflow = Ok r -> valid r = true ->
  exists items nodes,
    workflow = VDict items /\ get_str items "nodes" = Some (VList nodes).
Proof.
  unfold validate_structure. intros H Hvalid.
  destruct (contains_str workflow "nodes") as [has_nodes|e] eqn:Hc;
    cbn in H; [|discriminate].
  match type of H with
  | Py.bind ?m _ = _ => destruct m as [r0|e] eqn:Hphase
  end; cbn in H; [|discriminate].
  assert (Hr0 : valid r0 = true).
  { destruct (contains_str workflow "connections") as [hc|e]; cbn in H;
      [|discriminate].
    destruct hc; cbn in H.
    - destruct (getitem_str workflow "connections") as [c|e]; cbn in H;
        [|discriminate].
      destruct (is_dict c); cbn in H; inversion H; subst; exact Hvalid.
    - inversion H; subst; exact Hvalid. }
  clear H. destruct has_nodes; cbn in Hphase.
  - destruct workflow; try discriminate Hphase. cbn in Hphase.
    destruct (get_str d "nodes") as [x|] eqn:Hg; cbn in Hphase;
      [|discriminate].
    destruct x; inversion Hphase; subst; try discriminate Hr0.
    eauto.
  - inversion Hphase; subst. discriminate Hr0.
Qed.

Lemma dict_set_increment (acc : list (value * Z)) k :
  sum_counts
    (dict_set acc k
       (match dict_get acc k with Some c => c | None => 0 end + 1))
  = sum_counts acc + 1.
Proof.
  unfold sum_counts, dict_values.
  induction acc as [|[k' c] acc IH]; cbn; [lia|].
  destruct (key_eqb k' k); cbn; lia.
Qed.

Lemma count_node_types_sum nodes : forall acc counts,
  count_node_types nodes acc = Ok counts ->
  sum_counts counts = sum_counts acc + Z.of_nat (List.length nodes).
Proof.
  induction nodes as [|n ns IH]; intros acc counts H; cbn in H.
  - inversion H; subst. cbn. lia.
  - destruct (get_default n "type" (VStr "unknown")) as [ty|e]; cbn in H;
      [|discriminate].
    destruct (hashable ty); [|discriminate].
    apply IH in H. rewrite H, dict_set_increment.
    cbn [List.length]. lia.
Qed.

Lemma count_connections_from values : forall start,
  fold_left
    (fun total conns =>
       match conns with
       | VDict d => total + Z.of_nat (List.length d)
       | _ => total
       end) values start
  = start + fold_right Z.add 0 (map entry_count (filter is_dict values)).
Proof.
  induction values as [|v vs IH]; intros start; cbn; [lia|].
  rewrite IH. destruct v; cbn; lia.
Qed.

Lemma count_connections_spec connections :
  count_connections (dict_values connections) = connections_sum connections.
Proof.
  unfold count_connections, connections_sum.
  now rewrite count_connections_from.
Qed.

Lemma iter_len v items :
  iter v = Ok items -> len v = Ok (Z.of_nat (List.length items)).
Proof.
  destruct v; cbn; intros H; inversion H; subst; try reflexivity.
  - clear H. f_equal. f_equal.
    induction s as [|c s IH]; cbn; congruence.
  - unfold dict_keys. now rewrite length_map.
Qed.

End StructureFacts.

Section MetadataClaims.
Import Py WorkflowValidator Spec.

(** C8.  A document whose [nodes] is a sequence of records each holding
    [id], [name] and [type], and whose [connections] is present and a
    mapping, validates with [valid = true], no error and no warning. *)
Theorem complete_document_validates_clean
    (items : list (value * value)) (nodes : list value)
    (conns : list (value * value)) :
  get_str items "nodes" = Some (VList nodes) ->
  forallb complete_node nodes = true ->
  get_str items "connections" = Some (VDict conns) ->
  validate_structure (VDict items)
  = Ok {| valid := true; errors := []; warnings := [] |}.
Proof.
  intros Hn Hall Hc. unfold validate_structure. cbn.
  rewrite (has_str_of_get _ _ Hn), (has_str_of_get _ _ Hc), Hn, Hc. cbn.
  now rewrite check_nodes_complete.
Qed.

Lemma complete_document_validates_clean_witness :
  validate_structure Sample.doc_two_http
  = Ok {| valid := true; errors := []; warnings := [] |}.
Proof.
  apply (@complete_document_validates_clean _
           [Sample.node "1" "A" "http"; Sample.node "2" "B" "http"]
           [ Sample.str_entry "1"
               (VDict [ Sample.str_entry "main"
                          (VList [VList [VStr "2"]]) ]) ]);
    reflexivity.
Defined.

(** C7.  For a document accepted by validation, the metadata returned by
    [extract_metadata] has node-type counts that sum to [node_count], and
    [node_count] is the length of the document's [nodes] sequence. *)
Theorem node_type_counts_sum_to_node_count
    (workflow : value) (r : ValidationResult) (path : string)
    (md : WorkflowMetadata) :
  validate_structure workflow = Ok r -> valid r = true ->
  extract_metadata workflow path = Ok md ->
  sum_counts (node_types md) = node_count md
  /\ node_count md = Z.of_nat (List.length (nodes_of workflow)).
Proof.
  intros Hv Hvalid Hmd.
  destruct (valid_document_inv _ Hv Hvalid) as (items & nodes & -> & Hn).
  unfold extract_metadata, node_type_counts in Hmd. cbn in Hmd.
  rewrite Hn in Hmd. cbn in Hmd.
  destruct (count_node_types nodes []) as [counts|e] eqn:Hc; cbn in Hmd;
    [|discriminate].
  destruct (values_of _) as [vs|e]; cbn in Hmd; [|discriminate].
  inversion Hmd; subst; clear Hmd. cbn [node_types node_count]. split.
  - rewrite (count_node_types_sum _ _ Hc). cbn. lia.
  - cbn [nodes_of]. now rewrite Hn.
Qed.

Lemma node_type_counts_sum_to_node_count_witness :
  exists md,
    extract_metadata Sample.doc_two_http "flows/ok.json" = Ok md
    /\ node_types md = [(VStr "http", 2)]
    /\ sum_counts (node_types md) = node_count md
    /\ node_count md = Z.of_nat (List.length (nodes_of Sample.doc_two_http)).
Proof.
  eexists. split; [reflexivity|]. split; [reflexivity|].
  apply (@node_type_counts_sum_to_node_count Sample.doc_two_http
           {| valid := true; errors := []; warnings := [] |}
           "flows/ok.json");
    reflexivity.
Defined.

(** C9.  When [connections] is a mapping, the [connections_count] of the
    extracted metadata is the sum of the entry counts over exactly those
    of its values that are mappings; the other values add nothing and
    cause no failure: extraction returns whenever the count of node types
    does. *)
Theorem connections_count_sums_inner_mappings
    (items conns : list (value * value)) (path : string) :
  get_str items "connections" = Some (VDict conns) ->
  (forall md, extract_metadata (VDict items) path = Ok md ->
              connections_count md = connections_sum conns)
  /\ (forall counts, node_type_counts (VDict items) = Ok counts ->
                     exists md, extract_metadata (VDict items) path = Ok md
                                /\ connections_count md
                                   = connections_sum conns).
Proof.
  intros Hc.
  assert (Hshape : forall counts,
             node_type_counts (VDict items) = Ok counts ->
             exists md, extract_metadata (VDict items) path = Ok md
                        /\ connections_count md = connections_sum conns).
  { intros counts Hcounts. unfold extract_metadata. rewrite Hcounts. cbn.
    rewrite Hc. cbn.
    unfold node_type_counts in Hcounts. cbn in Hcounts.
    destruct (iter _) as [its|e] eqn:Hit; cbn in Hcounts; [|discriminate].
    rewrite (iter_len _ Hit). cbn.
    eexists; split; [reflexivity|]. cbn. apply count_connections_spec. }
  split; [|exact Hshape].
  intros md Hmd.
  destruct (node_type_counts (VDict items)) as [counts|e] eqn:Hcounts.
  - destruct (Hshape counts eq_refl) as (md' & Hmd' & Hsum).
    rewrite Hmd in Hmd'. now inversion Hmd'; subst.
  - unfold extract_metadata in Hmd. rewrite Hcounts in Hmd.
    discriminate Hmd.
Qed.

Lemma connections_count_sums_inner_mappings_witness :
  exists md,
    extract_metadata Sample.doc_two_http "flows/ok.json" = Ok md
    /\ connections_count md = 1.
Proof.
  destruct (proj2 (@connections_count_sums_inner_mappings
                     [ Sample.str_entry "nodes"
                         (VList [Sample.node "1" "A" "http";
                                 Sample.node "2" "B" "http"]);
                       Sample.str_entry "connections"
                         (VDict [ Sample.str_entry "1"
                                    (VDict [ Sample.str_entry "main"
                                               (VList [VList [VStr "2"]]) ]) ]) ]
                     [ Sample.str_entry "1"
                         (VDict [ Sample.str_entry "main"
                                    (VList [VList [VStr "2"]]) ]) ]
                     "flows/ok.json" eq_refl)
              [(VStr "http", 2)] eq_refl) as (md & Hmd & Hsum).
  exists md. split; [exact Hmd | exact Hsum].
Defined.

End MetadataClaims.

Section EffectFacts.

Lemma extend_extend st a b :
  IO.extend (IO.extend st a) b = IO.extend st (a ++ b)%list.
Proof. unfold IO.extend; cbn. now rewrite app_assoc. Qed.

Lemma extend_nil st : IO.extend st [] = st.
Proof. destruct st; unfold IO.extend; cbn. now rewrite app_nil_r. Qed.

Lemma spawned_extend st evs :
  IO.spawned (IO.extend st evs)
  = (IO.spawned st ++ filter IO.is_spawn evs)%list.
Proof. unfold IO.spawned, IO.extend; cbn. apply filter_app. Qed.

Lemma no_spawn_in_prints {A} (f : A -> string) (l : list A) :
  filter IO.is_spawn (map (fun x => Stdout (f x)) l) = [].
Proof. induction l; cbn; auto. Qed.

Lemma for_each_print {A} (f : A -> string) (l : list A) : forall st,
  IO.for_each l (fun x st0 => (Ok tt, IO.extend st0 [Stdout (f x)])) st
  = (Ok tt, IO.extend st (map (fun x => Stdout (f x)) l)).
Proof.
  induction l as [|x l IH]; intros st; cbn [IO.for_each map].
  - unfold IO.ret. now rewrite extend_nil.
  - unfold IO.bind at 1. rewrite IH, extend_extend. reflexivity.
Qed.

End EffectFacts.

Ltac io_run :=
  unfold IO.bind, IO.ret, IO.lift, IO.raise, IO.try, IO.print, IO.eprint,
    IO.emit, IO.datetime_now;
  cbv beta iota;
  rewrite ?extend_extend.

Ltac io_done :=
  split;
  [ intros ?; io_run; rewrite ?extend_nil; reflexivity
  | try reflexivity ].

Section AdapterFacts.
Import Spec.
Context {R : Runtime} {W : World}.

(** The first block of the radar parser never raises and starts no
    process. *)
Lemma radar_load_findings_spec json_file :
  exists v evs,
    (forall st, AgenticRadarExecutor.load_findings json_file st
                = (Ok v, IO.extend st evs))
    /\ filter IO.is_spawn evs = [].
Proof.
  unfold AgenticRadarExecutor.load_findings, AgenticRadarExecutor.warn.
  destruct (path_exists json_file);
    [|exists (VList []), []; io_done].
  destruct (read_json json_file) as [data|msg|msg|e];
    try (eexists (VList []), [_]; io_done).
  destruct data; try (exists (VList []), []; io_done).
  - eexists _, []; io_done.
  - destruct (Py.get_str d "findings"); eexists _, []; io_done.
Qed.

Lemma radar_parse_output_spec out name :
  exists r evs,
    (forall st, AgenticRadarExecutor._parse_output out name st
                = (r, IO.extend st evs))
    /\ filter IO.is_spawn evs = [].
Proof.
  unfold AgenticRadarExecutor._parse_output.
  destruct (radar_load_findings_spec (path_join out (name ++ ".json")))
    as (v & evs & Hload & Hq).
  destruct (path_exists (path_join out (name ++ ".html"))
            && negb (Py.truthy v)) eqn:Hb.
  - destruct v;
      try (exists (Raise AttributeError), evs; split; [|exact Hq];
           intros st; io_run; rewrite Hload, Hb; reflexivity).
    eexists (Ok _), evs; split; [|exact Hq].
    intros st; io_run; rewrite Hload, Hb; reflexivity.
  - exists (Ok v), evs; split; [|exact Hq].
    intros st; io_run; rewrite Hload, Hb; reflexivity.
Qed.

Lemma radar_run_spec self path :
  exists res evs,
    (forall st, AgenticRadarExecutor.run self path st
                = (Ok res,
                   IO.extend st
                     (Spawn (AgenticRadarExecutor.command self path)
                        :: evs)))
    /\ filter IO.is_spawn evs = []
    /\ (snd (fst res) = false -> fst (fst res) = VList [])
    /\ (forall kind,
           failure_of radar_allowed
             (spawn (AgenticRadarExecutor.command self path)) = Some kind ->
           fst (fst res) = VList [] /\ snd (fst res) = false).
Proof.
  unfold AgenticRadarExecutor.run.
  destruct (spawn (AgenticRadarExecutor.command self path))
    as [rc out err| | |e] eqn:Hs; unfold failure_of, radar_allowed.
  - destruct (rc =? 0) eqn:Hrc; cbn [negb].
    + destruct (radar_parse_output_spec
                  (path_join (AgenticRadarExecutor.output_dir self)
                     (path_stem path ++ "_radar")) (path_stem path))
        as (r & evs & Hparse & Hq).
      destruct r as [findings|e].
      * exists (findings, true, ""), evs. split; [|repeat split; auto;
                                                    discriminate].
        intros st; io_run. rewrite Hparse. io_run. reflexivity.
      * eexists (VList [], false, _), evs.
        split; [|repeat split; auto; discriminate].
        intros st; io_run. rewrite Hparse. io_run. reflexivity.
    + eexists (VList [], false, _), []. io_done. repeat split; auto.
  - eexists (VList [], false, _), []. io_done. repeat split; auto.
  - eexists (VList [], false, _), []. io_done. repeat split; auto.
  - eexists (VList [], false, _), []. io_done. repeat split; auto.
Qed.
End AdapterFacts.

Section SemgrepFacts.
Import Spec.
Context {R : Runtime} {W : World}.

Lemma semgrep_parse_output_spec stdout :
  exists r evs,
    (forall st, SemgrepExecutor._parse_output stdout st
                = (r, IO.extend st evs))
    /\ filter IO.is_spawn evs = []
    /\ (forall v, r = Ok v -> exists l, v = VList l).
Proof.
  unfold SemgrepExecutor._parse_output.
  destruct (json_loads stdout) as [data|msg|msg|e].
  - match goal with
    | |- context [IO.lift ?m] => destruct m as [v|e] eqn:Hm
    end.
    + exists (Ok v), []. io_done. split; [reflexivity|].
      intros v' Hv'; inversion Hv'; subst; clear Hv'.
      destruct (Py.contains_str data "results") as [[|]|]; cbn in Hm;
        try discriminate.
      * destruct (Py.getitem_str data "results"); cbn in Hm;
          [|discriminate].
        destruct (Py.iter a); cbn in Hm; [|discriminate].
        destruct (SemgrepExecutor.findings_of a0); cbn in Hm;
          [|discriminate].
        inversion Hm; eauto.
      * inversion Hm; eauto.
    + exists (Raise e), []. io_done. split; [reflexivity|discriminate].
  - eexists (Ok (VList [])), [_]. io_done. split; [reflexivity|].
    intros v Hv; inversion Hv; eauto.
  - exists (Raise (OtherError "OSError")), []. io_done.
    split; [reflexivity|discriminate].
  - exists (Raise e), []. io_done. split; [reflexivity|discriminate].
Qed.

(** The pattern-scanner adapter always returns, and always with a list. *)
Lemma semgrep_run_spec self path :
  exists findings success error evs,
    (forall st, SemgrepExecutor.run self path st
                = (Ok (VList findings, success, error), IO.extend st evs))
    /\ (success = false -> findings = [])
    /\ (path_exists (SemgrepExecutor.rules_path self) = false -> evs = [])
    /\ (path_exists (SemgrepExecutor.rules_path self) = true ->
        exists quiet,
          evs = Spawn (SemgrepExecutor.command self path) :: quiet
          /\ filter IO.is_spawn quiet = [])
    /\ (forall kind,
           path_exists (SemgrepExecutor.rules_path self) = true ->
           failure_of semgrep_allowed
             (spawn (SemgrepExecutor.command self path)) = Some kind ->
           findings = [] /\ success = false).
Proof.
  unfold SemgrepExecutor.run.
  destruct (path_exists (SemgrepExecutor.rules_path self)); cbn [negb];
    [|eexists [], false, _, []; io_done;
      repeat split; auto; discriminate].
  destruct (spawn (SemgrepExecutor.command self path))
    as [rc out err| | |e] eqn:Hs; unfold failure_of, semgrep_allowed.
  - destruct ((rc =? 0) || (rc =? 1)) eqn:Hrc; cbn [negb].
    + destruct (semgrep_parse_output_spec out) as (r & evs & Hparse & Hq & Hl).
      destruct r as [v|e].
      * destruct (Hl v eq_refl) as [l ->].
        exists l, true, "", (Spawn (SemgrepExecutor.command self path) :: evs).
        split; [intros st; io_run; rewrite Hparse; io_run; reflexivity|].
        repeat split; eauto; discriminate.
      * eexists [], false, _,
          (Spawn (SemgrepExecutor.command self path) :: evs).
        split; [intros st; io_run; rewrite Hparse; io_run; reflexivity|].
        repeat split; eauto; discriminate.
    + eexists [], false, _, [_]. io_done.
      repeat split; eauto; discriminate.
  - eexists [], false, _, [_]. io_done. repeat split; eauto; discriminate.
  - eexists [], false, _, [_]. io_done. repeat split; eauto; discriminate.
  - eexists [], false, _, [_]. io_done. repeat split; eauto; discriminate.
Qed.
End SemgrepFacts.

Ltac io_run_in H :=
  unfold IO.bind, IO.ret, IO.lift, IO.raise, IO.try, IO.print, IO.eprint,
    IO.emit, IO.datetime_now in H;
  cbv beta iota in H;
  rewrite ?extend_extend in H.

(** Normalises the list of started processes of an explicit final state. *)
Ltac spawned_run :=
  unfold IO.spawned, IO.extend; cbn [log ticks];
  rewrite ?filter_app; cbn [filter IO.is_spawn];
  rewrite ?no_spawn_in_prints, ?app_nil_r; cbn [app].

Section AnalyzeFacts.
Import Spec.
Context {R : Runtime} {W : World}.

(** On a file that fails validation [analyze] reads the clock once,
    prints the diagnostics and returns [None]: nothing else happens. *)
Lemma analyze_invalid self path doc r :
  WorkflowValidator.load_workflow path = Ok (doc, r) -> valid r = false ->
  forall st,
    HybridAnalyzer.analyze self path st
    = (Ok None,
       IO.extend {| ticks := S (ticks st); log := log st |}
         (Stdout (nl ++ "[*] Loading workflow: " ++ path)
            :: Stdout ("[!] Validation failed for " ++ path ++ ":")
            :: map (fun error => Stdout ("    ERROR: " ++ error))
                 (errors r))).
Proof.
  intros Hload Hvalid st. unfold HybridAnalyzer.analyze. io_run.
  rewrite Hload. cbv beta iota. rewrite Hvalid. cbn [negb].
  rewrite for_each_print. io_run. reflexivity.
Qed.

Lemma analyze_invalid_spawned self path doc r st :
  WorkflowValidator.load_workflow path = Ok (doc, r) -> valid r = false ->
  IO.spawned (snd (HybridAnalyzer.analyze self path st)) = IO.spawned st.
Proof.
  intros Hload Hvalid. rewrite (analyze_invalid self path Hload Hvalid).
  cbn [snd]. spawned_run. reflexivity.
Qed.

Lemma analyze_load_raises self path e :
  WorkflowValidator.load_workflow path = Raise e ->
  forall st, exists st',
    HybridAnalyzer.analyze self path st = (Raise e, st')
    /\ IO.spawned st' = IO.spawned st.
Proof.
  intros Hload st. unfold HybridAnalyzer.analyze. io_run.
  rewrite Hload. eexists. split; [reflexivity|].
  spawned_run. reflexivity.
Qed.

Lemma analyze_extract_raises self path doc r e :
  WorkflowValidator.load_workflow path = Ok (doc, r) -> valid r = true ->
  WorkflowValidator.extract_metadata doc path = Raise e ->
  forall st, exists st',
    HybridAnalyzer.analyze self path st = (Raise e, st')
    /\ IO.spawned st' = IO.spawned st.
Proof.
  intros Hload Hvalid Hmd st. unfold HybridAnalyzer.analyze. io_run.
  rewrite Hload. cbv beta iota. rewrite Hvalid, Hmd. cbn [negb].
  destruct (warnings r) as [|w ws]; [|rewrite for_each_print];
    (eexists; split; [reflexivity|]; spawned_run; reflexivity).
Qed.

Lemma analyze_radar_unsized self path doc r md rf rerr revs e :
  WorkflowValidator.load_workflow path = Ok (doc, r) -> valid r = true ->
  WorkflowValidator.extract_metadata doc path = Ok md ->
  (forall st,
      AgenticRadarExecutor.run (HybridAnalyzer.agentic_executor self) path st
      = (Ok (rf, true, rerr), IO.extend st revs)) ->
  Py.len rf = Raise e ->
  forall st, exists st',
    HybridAnalyzer.analyze self path st = (Raise e, st')
    /\ IO.spawned st' = (IO.spawned st ++ filter IO.is_spawn revs)%list.
Proof.
  intros Hload Hvalid Hmd Hr Hlen st.
  unfold HybridAnalyzer.analyze, HybridAnalyzer.settle. io_run.
  rewrite Hload. cbv beta iota. rewrite Hvalid, Hmd. cbn [negb].
  destruct (warnings r) as [|w ws]; [|rewrite for_each_print];
    (rewrite Hr; cbn [negb]; rewrite Hlen;
     eexists; split; [reflexivity|]; spawned_run; reflexivity).
Qed.

(** The block printing the validation warnings is silent towards the
    adapters and never raises. *)
Lemma warnings_block (ws : list string) :
  exists evs,
    (forall st,
        match ws with
        | [] => IO.ret tt
        | w :: rest =>
            IO.print "[!] Validation warnings:" >>
            IO.for_each (w :: rest)
              (fun warning => IO.print ("    WARNING: " ++ warning))
        end st = (Ok tt, IO.extend st evs))
    /\ filter IO.is_spawn evs = [].
Proof.
  destruct ws as [|w ws].
  - exists []. io_done.
  - eexists. split.
    + intros st. io_run. rewrite for_each_print, extend_extend.
      reflexivity.
    + cbn [app filter IO.is_spawn]. apply no_spawn_in_prints.
Qed.

Lemma settle_spec tool findings success error :
  (success = false -> findings = VList []) ->
  (success = true -> exists n, Py.len findings = Ok n) ->
  exists line, forall st,
    HybridAnalyzer.settle tool (findings, success, error) st
    = (Ok findings, IO.extend st [Stdout line]).
Proof.
  intros Hfail Hlen. unfold HybridAnalyzer.settle. destruct success.
  - destruct (Hlen eq_refl) as [n Hn]. eexists. intros st.
    cbn [negb]. io_run. rewrite Hn. reflexivity.
  - rewrite (Hfail eq_refl). eexists. intros st. cbn [negb]. io_run.
    reflexivity.
Qed.

Lemma analyze_valid self path doc r md rf rok rerr revs sl sok serr sevs :
  WorkflowValidator.load_workflow path = Ok (doc, r) -> valid r = true ->
  WorkflowValidator.extract_metadata doc path = Ok md ->
  (forall st,
      AgenticRadarExecutor.run (HybridAnalyzer.agentic_executor self) path st
      = (Ok (rf, rok, rerr), IO.extend st revs)) ->
  (rok = false -> rf = VList []) ->
  (rok = true -> exists n, Py.len rf = Ok n) ->
  (forall st,
      SemgrepExecutor.run (HybridAnalyzer.semgrep_executor self) path st
      = (Ok (VList sl, sok, serr), IO.extend st sevs)) ->
  (sok = false -> sl = []) ->
  forall st, exists record st',
    HybridAnalyzer.analyze self path st = (Ok (Some record), st')
    /\ IO.spawned st'
       = (IO.spawned st ++ filter IO.is_spawn revs
            ++ filter IO.is_spawn sevs)%list
    /\ workflow_path record = path
    /\ metadata record = md
    /\ agentic_radar_findings record = rf
    /\ semgrep_findings record = VList sl.
Proof.
  intros Hload Hvalid Hmd Hr Hrf Hlen Hs Hsl st.
  destruct (warnings_block (warnings r)) as (wevs & Hw & Hwq).
  destruct (settle_spec "Agentic Radar" rerr Hrf Hlen) as (rline & Hrs).
  assert (Hsf : sok = false -> VList sl = VList [])
    by (intros E; now rewrite (Hsl E)).
  assert (Hsn : sok = true -> exists n, Py.len (VList sl) = Ok n)
    by (intros _; cbn; eauto).
  destruct (settle_spec "Semgrep" serr Hsf Hsn) as (sline & Hss).
  assert (Hrn : exists n, Py.len rf = Ok n).
  { destruct rok; [auto|]. rewrite (Hrf eq_refl). cbn; eauto. }
  destruct Hrn as [n Hn].
  unfold HybridAnalyzer.analyze. io_run. io_run_in Hw.
  rewrite Hload. cbv beta iota. rewrite Hvalid, Hmd. cbn [negb].
  rewrite Hw, Hr. cbv beta iota. rewrite Hrs, Hs. cbv beta iota.
  rewrite Hss, Hn. cbn [Py.len].
  eexists; eexists. split; [reflexivity|]. split.
  - spawned_run. rewrite Hwq. cbn [app]. rewrite ?app_nil_r.
    rewrite <- ?app_assoc. reflexivity.
  - repeat split; reflexivity.
Qed.
End AnalyzeFacts.

Section BatchFacts.
Import Spec.
Context {R : Runtime} {W : World}.

(** A record comes out of [analyze] only for a file that passed
    validation, and it names that file. *)
Lemma analyze_some_inv self path st record st' :
  HybridAnalyzer.analyze self path st = (Ok (Some record), st') ->
  workflow_path record = path
  /\ exists doc r,
       WorkflowValidator.load_workflow path = Ok (doc, r)
       /\ valid r = true.
Proof.
  intros H.
  destruct (WorkflowValidator.load_workflow path) as [[doc r]|e] eqn:Hload.
  2: { destruct (analyze_load_raises self path Hload st) as (s & Hs & _).
       rewrite Hs in H. discriminate H. }
  destruct (valid r) eqn:Hvalid.
  2: { rewrite (analyze_invalid self path Hload Hvalid st) in H.
       discriminate H. }
  destruct (WorkflowValidator.extract_metadata doc path) as [md|e] eqn:Hmd.
  2: { destruct (analyze_extract_raises self path Hload Hvalid Hmd st)
         as (s & Hs & _).
       rewrite Hs in H. discriminate H. }
  destruct (radar_run_spec (HybridAnalyzer.agentic_executor self) path)
    as ([[rf rok] rerr] & revs & Hr & _ & Hrf & _).
  destruct (semgrep_run_spec (HybridAnalyzer.semgrep_executor self) path)
    as (sl & sok & serr & sevs & Hs & Hsl & _).
  cbn [fst snd] in Hrf.
  assert (Hcases : (rok = true /\ exists e, Py.len rf = Raise e)
                   \/ (rok = true -> exists n, Py.len rf = Ok n)).
  { destruct rok; [|right; discriminate].
    destruct (Py.len rf) as [n|e]; [right|left]; eauto. }
  destruct Hcases as [[-> [e He]] | Hlen].
  - destruct (analyze_radar_unsized self path Hload Hvalid Hmd Hr He st)
      as (s & Hs' & _).
    rewrite Hs' in H. discriminate H.
  - destruct (analyze_valid self path Hload Hvalid Hmd Hr Hrf Hlen Hs Hsl st)
      as (rec & s & Ha & _ & Hp & _).
    rewrite Ha in H. inversion H; subst. eauto.
Qed.


End BatchFacts.

Section OrchestratorClaims.
Import Spec.


End OrchestratorClaims.

Section AdapterClaims.
Import Spec.

Lemma append_cancel (p a b : string) : p ++ a = p ++ b -> a = b.
Proof. induction p as [|c p IH]; cbn; intros H; [exact H|]. inversion H; auto. Qed.

(** The error message tells the three failures apart. *)
Lemma failure_message_kind tool allowed allowed' o o' k k' :
  failure_of allowed o = Some k -> failure_of allowed' o' = Some k' ->
  failure_message tool o = failure_message tool o' -> k = k'.
Proof.
  intros Hk Hk' Hm.
  destruct o as [rc out err| | |e]; cbn in Hk;
    try destruct (allowed rc); inversion Hk; subst; clear Hk;
    destruct o' as [rc' out' err'| | |e']; cbn in Hk';
    try destruct (allowed' rc'); inversion Hk'; subst; clear Hk';
    try reflexivity;
    cbn in Hm; apply append_cancel in Hm; discriminate Hm.
Qed.

Lemma radar_run_failure {R : Runtime} {W : World} self path kind :
  failure_of radar_allowed
    (spawn (AgenticRadarExecutor.command self path)) = Some kind ->
  forall st,
    AgenticRadarExecutor.run self path st
    = (Ok (VList [], false,
           failure_message "Agentic Radar"
             (spawn (AgenticRadarExecutor.command self path))),
       IO.extend st [Spawn (AgenticRadarExecutor.command self path)]).
Proof.
  intros Hk st. unfold AgenticRadarExecutor.run. io_run.
  destruct (spawn (AgenticRadarExecutor.command self path))
    as [rc out err| | |e]; cbn in Hk; try discriminate Hk;
    try reflexivity.
  unfold radar_allowed in Hk. destruct (rc =? 0); [discriminate Hk|].
  reflexivity.
Qed.

Lemma semgrep_run_failure {R : Runtime} {W : World} self path kind :
  path_exists (SemgrepExecutor.rules_path self) = true ->
  failure_of semgrep_allowed
    (spawn (SemgrepExecutor.command self path)) = Some kind ->
  forall st,
    SemgrepExecutor.run self path st
    = (Ok (VList [], false,
           failure_message "Semgrep"
             (spawn (SemgrepExecutor.command self path))),
       IO.extend st [Spawn (SemgrepExecutor.command self path)]).
Proof.
  intros Hrules Hk st. unfold SemgrepExecutor.run. rewrite Hrules.
  cbn [negb]. io_run.
  destruct (spawn (SemgrepExecutor.command self path))
    as [rc out err| | |e]; cbn in Hk; try discriminate Hk;
    try reflexivity.
  unfold semgrep_allowed in Hk.
  destruct ((rc =? 0) || (rc =? 1)); [discriminate Hk|].
  reflexivity.
Qed.

Lemma in_spawned c st : In (Spawn c) (log st) -> In (Spawn c) (IO.spawned st).
Proof. intros H. unfold IO.spawned. apply filter_In. now split. Qed.

(** Every run of [analyze] from a fresh log ends in one of three ways:
    before any adapter ran, after the radar adapter returned findings
    that have no length, or with a record. *)
Lemma analyze_outcomes {R : Runtime} {W : World} self path n res st' :
  HybridAnalyzer.analyze self path (IO.fresh n) = (res, st') ->
  exists rf rok rerr revs sl sok serr sevs,
    (forall st,
        AgenticRadarExecutor.run (HybridAnalyzer.agentic_executor self)
          path st
        = (Ok (rf, rok, rerr),
           IO.extend st
             (Spawn (AgenticRadarExecutor.command
                       (HybridAnalyzer.agentic_executor self) path)
                :: revs)))
    /\ filter IO.is_spawn revs = []
    /\ (forall st,
           SemgrepExecutor.run (HybridAnalyzer.semgrep_executor self) path st
           = (Ok (VList sl, sok, serr), IO.extend st sevs))
    /\ (IO.spawned st' = []
        \/ (IO.spawned st'
             = [Spawn (AgenticRadarExecutor.command
                         (HybridAnalyzer.agentic_executor self) path)]
            /\ rok = true)
        \/ (exists record,
               res = Ok (Some record)
               /\ IO.spawned st'
                  = Spawn (AgenticRadarExecutor.command
                             (HybridAnalyzer.agentic_executor self) path)
                      :: filter IO.is_spawn sevs
               /\ agentic_radar_findings record = rf
               /\ semgrep_findings record = VList sl)).
Proof.
  intros H.
  destruct (radar_run_spec (HybridAnalyzer.agentic_executor self) path)
    as ([[rf rok] rerr] & revs & Hr & Hrq & Hrf & _).
  destruct (semgrep_run_spec (HybridAnalyzer.semgrep_executor self) path)
    as (sl & sok & serr & sevs & Hs & Hsl & _).
  cbn [fst snd] in Hrf.
  exists rf, rok, rerr, revs, sl, sok, serr, sevs.
  split; [exact Hr|]. split; [exact Hrq|]. split; [exact Hs|].
  destruct (WorkflowValidator.load_workflow path) as [[doc r]|e] eqn:Hload.
  2: { destruct (analyze_load_raises self path Hload (IO.fresh n))
         as (s & Ha & Hq).
       rewrite Ha in H. inversion H; subst. left. exact Hq. }
  destruct (valid r) eqn:Hvalid.
  2: { pose proof (analyze_invalid_spawned self path (IO.fresh n)
                     Hload Hvalid) as Hq.
       rewrite H in Hq. left. exact Hq. }
  destruct (WorkflowValidator.extract_metadata doc path) as [md|e] eqn:Hmd.
  2: { destruct (analyze_extract_raises self path Hload Hvalid Hmd
                   (IO.fresh n)) as (s & Ha & Hq).
       rewrite Ha in H. inversion H; subst. left. exact Hq. }
  assert (Hcases : (rok = true /\ exists e, Py.len rf = Raise e)
                   \/ (rok = true -> exists m, Py.len rf = Ok m)).
  { destruct rok; [|right; discriminate].
    destruct (Py.len rf) as [m|e]; [right|left]; eauto. }
  destruct Hcases as [[-> [e He]] | Hlen].
  - destruct (analyze_radar_unsized self path Hload Hvalid Hmd Hr He
                (IO.fresh n)) as (s & Ha & Hq).
    rewrite Ha in H. inversion H; subst. right. left. split; [|reflexivity].
    rewrite Hq. cbn [filter IO.is_spawn]. rewrite Hrq. reflexivity.
  - destruct (analyze_valid self path Hload Hvalid Hmd Hr Hrf Hlen Hs Hsl
                (IO.fresh n)) as (rec & s & Ha & Hq & _ & _ & Hfr & Hfs).
    rewrite Ha in H. inversion H; subst. right. right.
    exists rec. repeat split; auto.
    rewrite Hq. cbn [filter IO.is_spawn]. rewrite Hrq. reflexivity.
Qed.

(** C4.  When the subprocess of either adapter times out, is not found
    or exits with a code the adapter does not accept, [run] returns no
    finding, [success = false] and a message that tells the three cases
    apart; and when this happens to an adapter that [analyze] has started,
    the record is still produced, with no finding for the failed tool and
    with the findings the other adapter returned. *)
Theorem adapter_failure_is_contained {R : Runtime} {W : World}
    (self : HybridAnalyzer.t) (path : string) :
  let radar := HybridAnalyzer.agentic_executor self in
  let semgrep := HybridAnalyzer.semgrep_executor self in
  let radar_cmd := AgenticRadarExecutor.command radar path in
  let semgrep_cmd := SemgrepExecutor.command semgrep path in
  (forall kind,
      failure_of radar_allowed (spawn radar_cmd) = Some kind ->
      forall st,
        AgenticRadarExecutor.run radar path st
        = (Ok (VList [], false,
               failure_message "Agentic Radar" (spawn radar_cmd)),
           IO.extend st [Spawn radar_cmd]))
  /\ (forall kind,
         path_exists (SemgrepExecutor.rules_path semgrep) = true ->
         failure_of semgrep_allowed (spawn semgrep_cmd) = Some kind ->
         forall st,
           SemgrepExecutor.run semgrep path st
           = (Ok (VList [], false,
                  failure_message "Semgrep" (spawn semgrep_cmd)),
              IO.extend st [Spawn semgrep_cmd]))
  /\ (forall tool allowed allowed' o o' k k',
         failure_of allowed o = Some k ->
         failure_of allowed' o' = Some k' ->
         failure_message tool o = failure_message tool o' -> k = k')
  /\ (forall n res st',
         HybridAnalyzer.analyze self path (IO.fresh n) = (res, st') ->
         (forall kind,
             In (Spawn radar_cmd) (log st') ->
             failure_of radar_allowed (spawn radar_cmd) = Some kind ->
             exists record,
               res = Ok (Some record)
               /\ agentic_radar_findings record = VList []
               /\ forall st0 sf ok err,
                    fst (SemgrepExecutor.run semgrep path st0)
                    = Ok (sf, ok, err) ->
                    semgrep_findings record = sf)
         /\ (forall kind,
                In (Spawn semgrep_cmd) (log st') ->
                failure_of semgrep_allowed (spawn semgrep_cmd) = Some kind ->
                exists record,
                  res = Ok (Some record)
                  /\ semgrep_findings record = VList []
                  /\ forall st0 rf ok err,
                       fst (AgenticRadarExecutor.run radar path st0)
                       = Ok (rf, ok, err) ->
                       agentic_radar_findings record = rf)).
Proof.
  intros radar semgrep radar_cmd semgrep_cmd.
  split; [intros kind; apply radar_run_failure|].
  split; [intros kind; apply semgrep_run_failure|].
  split; [apply failure_message_kind|].
  intros n res st' H.
  destruct (analyze_outcomes self path n H)
    as (rf & rok & rerr & revs & sl & sok & serr & sevs
        & Hr & Hrq & Hs & Hcases).
  fold radar semgrep in Hr, Hs, Hcases. fold radar_cmd in Hr, Hcases.
  split.
  - intros kind Hin Hk. apply in_spawned in Hin.
    pose proof (radar_run_failure radar path Hk (IO.fresh 0)) as Hfail.
    fold radar_cmd in Hfail.
    rewrite Hr in Hfail. inversion Hfail; subst; clear Hfail.
    destruct Hcases as [Hq | [[Hq Hok] | (rec & -> & Hq & Hfr & Hfs)]].
    + rewrite Hq in Hin. destruct Hin.
    + discriminate Hok.
    + exists rec. repeat split; auto.
      intros st0 sf ok err Hrun. rewrite Hs in Hrun. cbn in Hrun.
      inversion Hrun; subst. exact Hfs.
  - intros kind Hin Hk. apply in_spawned in Hin.
    assert (Hclash : In (Spawn semgrep_cmd) [Spawn radar_cmd] -> False).
    { intros [Heq | []]. discriminate Heq. }
    destruct Hcases as [Hq | [[Hq Hok] | (rec & -> & Hq & Hfr & Hfs)]].
    + rewrite Hq in Hin. destruct Hin.
    + rewrite Hq in Hin. destruct (Hclash Hin).
    + destruct (path_exists (SemgrepExecutor.rules_path semgrep)) eqn:Hrules.
      * pose proof (semgrep_run_failure semgrep path Hrules Hk (IO.fresh 0))
          as Hfail.
        fold semgrep_cmd in Hfail.
        rewrite Hs in Hfail. inversion Hfail; subst.
        exists rec. repeat split; auto.
        intros st0 rf' ok err Hrun. rewrite Hr in Hrun. cbn in Hrun.
        inversion Hrun; subst. reflexivity.
      * destruct (semgrep_run_spec semgrep path)
          as (sl' & sok' & serr' & sevs' & Hs' & _ & Hmissing & _).
        specialize (Hmissing Hrules). subst sevs'.
        specialize (Hs' (IO.fresh 0)). rewrite Hs in Hs'.
        inversion Hs' as [[Hsl Hsok Hserr Hlog]].
        cbn [IO.fresh log app] in Hlog. subst sevs.
        rewrite Hq in Hin. destruct (Hclash Hin).
Qed.

Lemma adapter_failure_is_contained_witness :
  exists record,
    fst (HybridAnalyzer.analyze (R := Sample.runtime)
           (W := Sample.world_radar_timeout) Sample.analyzer
           "flows/ok.json" (IO.fresh 0))
    = Ok (Some record)
    /\ agentic_radar_findings record = VList []
    /\ semgrep_findings record = VList [Sample.semgrep_finding].
Proof.
  destruct (@adapter_failure_is_contained Sample.runtime
              Sample.world_radar_timeout Sample.analyzer "flows/ok.json")
    as (_ & _ & _ & H).
  destruct (HybridAnalyzer.analyze (R := Sample.runtime)
              (W := Sample.world_radar_timeout) Sample.analyzer
              "flows/ok.json" (IO.fresh 0)) as [res st'] eqn:Ha.
  destruct (H 0%nat res st' Ha) as [Hradar _].
  vm_compute in Ha. injection Ha as <- <-.
  destruct (Hradar Timeout) as (record & Hres & Hr & Hs).
  - vm_compute. do 7 right. left. reflexivity.
  - reflexivity.
  - exists record. split; [exact Hres|]. split; [exact Hr|].
    apply (Hs (IO.fresh 0) _ true ""). reflexivity.
Defined.
End AdapterClaims.

Section RadarParserClaims.
Import Spec.



End RadarParserClaims.

Section ReportFacts.
Context {R : Runtime}.

Lemma ticks_extend st evs : ticks (IO.extend st evs) = ticks st.
Proof. reflexivity. Qed.




End ReportFacts.

Section ReportClaims.



End ReportClaims.

Section Scenarios.
Import Py WorkflowValidator.

(** The two-node scenario of the specification. *)
Example two_http_metadata :
  extract_metadata Sample.doc_two_http "flows/ok.json"
  = Ok {| filepath := "flows/ok.json";
          workflow_id := VStr "unknown";
          workflow_name := VStr "unnamed";
          node_count := 2;
          node_types := [(VStr "http", 2)];
          has_connections := true;
          connections_count := 1 |}.
Proof. reflexivity. Qed.

(** The scenario of the empty document. *)
Example empty_document_rejected :
  validate_structure Sample.doc_empty = Ok Sample.outcome_empty.
Proof. reflexivity. Qed.

(** Keys that Python holds equal share one counter. *)
Example numeric_types_share_a_counter :
  count_node_types
    [ VDict [ (VStr "type", VInt 1) ];
      VDict [ (VStr "type", VBool true) ];
      VDict [ (VStr "type", VFloat (S754_finite false 1 0)) ];
      VDict [ (VStr "type", VStr "1") ] ] []
  = Ok [ (VInt 1, 3); (VStr "1", 1) ].
Proof. reflexivity. Qed.

(** A top-level JSON scalar is not a container: validation itself raises. *)
Example scalar_document_raises :
  validate_structure (VInt 5) = Raise TypeError.
Proof. reflexivity. Qed.

End Scenarios.

Section ExtractionClaims.
Import Py WorkflowValidator.

(** C1.  Validation accepts [{"nodes":[1]}] and
    [{"nodes":[],"connections":[]}] with a warning only, yet
    [extract_metadata] raises [AttributeError] on both, and so does
    [analyze] on a file holding the first. *)
Theorem extract_metadata_raises_on_accepted_documents :
  (validate_structure Sample.doc_scalar_node = Ok Sample.outcome_scalar_node
   /\ valid Sample.outcome_scalar_node = true
   /\ extract_metadata Sample.doc_scalar_node "flows/bad.json"
      = Raise AttributeError)
  /\ (validate_structure Sample.doc_list_connections
      = Ok Sample.outcome_list_connections
      /\ valid Sample.outcome_list_connections = true
      /\ extract_metadata Sample.doc_list_connections "flows/bad.json"
         = Raise AttributeError)
  /\ fst (HybridAnalyzer.analyze (R := Sample.runtime)
            (W := Sample.world_scalar_node) Sample.analyzer "flows/bad.json"
            (IO.fresh 0))
     = Raise AttributeError
  /\ fst (HybridAnalyzer.analyze_batch (R := Sample.runtime)
            (W := Sample.world_scalar_node) Sample.analyzer "flows"
            (IO.fresh 0))
     = Raise AttributeError.
Proof. repeat split. Qed.
End ExtractionClaims.

(** * Further properties of the validator *)

Section ValidatorExtras.
Import Py WorkflowValidator Spec Shape.

(** What [validate_structure] computes on a mapping, by the shape of its
    [nodes] and [connections] entries. *)
Lemma validate_structure_mapping items :
  validate_structure (VDict items)
  = Ok (let r0 :=
          match get_str items "nodes" with
          | None =>
              {| valid := false;
                 errors := ["Missing required field: 'nodes'"];
                 warnings := [] |}
          | Some (VList l) =>
              check_nodes 0 l {| valid := true; errors := []; warnings := [] |}
          | Some _ =>
              {| valid := false;
                 errors := ["Field 'nodes' must be an array"];
                 warnings := [] |}
          end in
        match get_str items "connections" with
        | None => add_warning r0 "Workflow has no 'connections' field"
        | Some (VDict _) => r0
        | Some _ => add_warning r0 "Field 'connections' should be an object"
        end).
Proof.
  unfold validate_structure, contains_str, getitem_str, has_str.
  destruct (get_str items "nodes") as [[]|];
    destruct (get_str items "connections") as [[]|]; reflexivity.
Qed.

(** X1.  [validate_structure] returns on every mapping and raises
    [TypeError] on every top-level scalar ([None], a bool, a number). *)
Theorem validate_structure_total_on_mappings :
  (forall items, exists r, validate_structure (VDict items) = Ok r)
  /\ (forall w, match w with
                | VNone | VBool _ | VInt _ | VFloat _ => True
                | _ => False
                end ->
                validate_structure w = Raise TypeError).
Proof.
  split.
  - intros items. rewrite validate_structure_mapping. eauto.
  - intros w Hw. destruct w; try contradiction; reflexivity.
Qed.

Lemma validate_structure_total_on_mappings_witness :
  validate_structure (VInt 5) = Raise TypeError.
Proof.
  apply (proj2 validate_structure_total_on_mappings (VInt 5)). exact I.
Defined.

Lemma validate_structure_verdict (items : list (value * value))
    (r : ValidationResult) :
  validate_structure (VDict items) = Ok r ->
  match get_str items "nodes" with
  | Some (VList _) => valid r = true /\ errors r = []
  | Some _ => valid r = false /\ errors r = ["Field 'nodes' must be an array"]
  | None => valid r = false /\ errors r = ["Missing required field: 'nodes'"]
  end.
Proof.
  rewrite validate_structure_mapping. intros H. inversion H; subst; clear H.
  destruct (get_str items "nodes") as [x|];
    [destruct x|];
    destruct (get_str items "connections") as [[]|]; cbn;
    try (split; reflexivity);
    apply (check_nodes_keeps l 0
             {| valid := true; errors := []; warnings := [] |}).
Qed.

(** X2.  On a mapping the outcome is valid exactly when [nodes] is present
    and is a sequence; otherwise it carries the one error that says which
    of the two went wrong. *)
Theorem validate_structure_errors (items : list (value * value))
    (r : ValidationResult) :
  validate_structure (VDict items) = Ok r ->
  match get_str items "nodes" with
  | Some (VList _) => valid r = true /\ errors r = []
  | Some _ => valid r = false /\ errors r = ["Field 'nodes' must be an array"]
  | None => valid r = false /\ errors r = ["Missing required field: 'nodes'"]
  end.
Proof. apply validate_structure_verdict. Qed.

Lemma validate_structure_errors_witness :
  valid Sample.outcome_empty = false
  /\ errors Sample.outcome_empty = ["Missing required field: 'nodes'"].
Proof.
  apply (@validate_structure_errors [] Sample.outcome_empty). reflexivity.
Defined.

Lemma check_node_fields_warnings idx d fields : forall r,
  List.length (warnings (check_node_fields idx d fields r))
  = (List.length (warnings r)
     + List.length (filter (fun field => negb (has_str d field)) fields))%nat.
Proof.
  induction fields as [|f fs IH]; intros r; cbn [check_node_fields filter].
  - cbn. lia.
  - rewrite IH. destruct (has_str d f); cbn [negb List.length add_warning
                                               warnings].
    + reflexivity.
    + rewrite length_app. cbn [List.length]. lia.
Qed.

Lemma check_nodes_warnings nodes : forall idx r,
  List.length (warnings (check_nodes idx nodes r))
  = (List.length (warnings r) + list_sum (map node_warnings nodes))%nat.
Proof.
  induction nodes as [|n ns IH]; intros idx r;
    cbn [check_nodes map list_sum fold_right].
  - lia.
  - destruct n; rewrite IH; cbn [node_warnings add_warning warnings];
      rewrite ?length_app, ?check_node_fields_warnings; cbn [List.length];
      unfold missing_fields, list_sum; lia.
Qed.

(** X3.  On a mapping whose [nodes] is a sequence, the number of warnings
    is one per node that is not a record, plus one per required field
    ([id], [name], [type]) missing from a record node, plus one when
    [connections] is absent or is not a mapping. *)
Theorem validate_structure_warning_count (items : list (value * value))
    (nodes : list value) (r : ValidationResult) :
  get_str items "nodes" = Some (VList nodes) ->
  validate_structure (VDict items) = Ok r ->
  List.length (warnings r)
  = (list_sum (map node_warnings nodes) + connections_warnings items)%nat.
Proof.
  intros Hn. rewrite validate_structure_mapping, Hn.
  intros H; inversion H; subst; clear H. unfold connections_warnings.
  destruct (get_str items "connections") as [[]|];
    cbn [add_warning warnings]; rewrite ?length_app, check_nodes_warnings;
    cbn [List.length warnings]; lia.
Qed.

Lemma validate_structure_warning_count_witness :
  List.length (warnings Sample.outcome_scalar_node) = 2%nat.
Proof.
  apply (@validate_structure_warning_count
           [Sample.str_entry "nodes" (VList [VInt 1])] [VInt 1]
           Sample.outcome_scalar_node);
    reflexivity.
Defined.

(** X4.  An outcome returned by [load_workflow] is either valid with no
    error and no warning at all (the warnings of the structural check are
    dropped) or invalid with exactly one error. *)
Theorem load_workflow_outcome_shape {W : World} (path : string)
    (doc : value) (r : ValidationResult) :
  load_workflow path = Ok (doc, r) ->
  (valid r = true /\ errors r = [] /\ warnings r = [])
  \/ (valid r = false /\ List.length (errors r) = 1%nat).
Proof.
  unfold load_workflow.
  destruct (path_exists path); cbn [negb];
    [|intros H; inversion H; subst; right; split; reflexivity].
  destruct (path_isfile path); cbn [negb];
    [|intros H; inversion H; subst; right; split; reflexivity].
  destruct (read_json path) as [wf|msg|msg|e];
    try (intros H; inversion H; subst; right; split; reflexivity).
  destruct (validate_structure wf) as [v|e] eqn:Hv; cbn [Py.bind];
    [|discriminate].
  destruct (valid v) eqn:Hvalid; cbn [negb]; intros H.
  - inversion H; subst. left. repeat split.
  - injection H as <- <-. right. split; [exact Hvalid|].
    destruct wf as [| | | |s|l|d]; try discriminate Hv.
    + cbn in Hv.
      destruct (String.index 0 "nodes" s); [discriminate Hv|].
      cbn in Hv.
      destruct (String.index 0 "connections" s); [discriminate Hv|].
      inversion Hv; reflexivity.
    + cbn in Hv. destruct (existsb _ l); [discriminate Hv|].
      cbn in Hv. destruct (existsb _ l); [discriminate Hv|].
      inversion Hv; reflexivity.
    + pose proof (validate_structure_verdict _ Hv) as He.
      destruct (get_str d "nodes") as [[]|]; destruct He as [He1 He2];
        try (rewrite He2; reflexivity).
      congruence.
Qed.

Lemma load_workflow_outcome_shape_witness :
  exists doc r,
    load_workflow (W := Sample.world_scalar_node) "flows/bad.json"
    = Ok (doc, r)
    /\ warnings r = [].
Proof.
  eexists; eexists. split; [reflexivity|].
  destruct (@load_workflow_outcome_shape Sample.world_scalar_node
              "flows/bad.json" _ _ eq_refl) as [(_ & _ & H) | (H & _)];
    [exact H | discriminate H].
Defined.
End ValidatorExtras.

(** * Further properties of the metadata extractor *)

Section ExtractorExtras.
Import Py WorkflowValidator Spec Shape.

Lemma count_node_types_returns nodes : forall acc,
  (exists counts, count_node_types nodes acc = Ok counts)
  <-> forallb countable_node nodes = true.
Proof.
  induction nodes as [|n ns IH]; intros acc;
    cbn [count_node_types forallb].
  - split; eauto.
  - destruct n; cbn [get_default Py.bind countable_node andb];
      try (split; [intros [c Hc]; discriminate Hc | discriminate]).
    fold (node_type (VDict d)).
    destruct (hashable (node_type (VDict d))); cbn [andb].
    + apply IH.
    + split; [intros [c Hc]; discriminate Hc | discriminate].
Qed.

(** X5.  On a mapping whose [nodes] is a sequence, [extract_metadata]
    returns exactly when every node is a record whose [type] is hashable
    (not a list or a mapping) and [connections] is absent or a mapping. *)
Theorem extract_metadata_returns_iff (items : list (value * value))
    (nodes : list value) (path : string) :
  get_str items "nodes" = Some (VList nodes) ->
  (exists md, extract_metadata (VDict items) path = Ok md)
  <-> forallb countable_node nodes = true
      /\ connections_usable items = true.
Proof.
  intros Hn. unfold extract_metadata, node_type_counts, connections_usable.
  cbn [get_default Py.bind]. rewrite Hn. cbn [iter Py.bind len contains_str].
  rewrite <- (count_node_types_returns nodes []).
  destruct (count_node_types nodes []) as [counts|e]; cbn [Py.bind].
  - destruct (get_str items "connections") as [c|]; cbn [values_of Py.bind].
    + destruct c; cbn [values_of Py.bind];
        try (split; [intros [md H]; discriminate H
                    | intros [_ H]; discriminate H]).
      split; [intros _; split; eauto | intros _; eauto].
    + split; [intros _; split; eauto | intros _; eauto].
  - split; [intros [md H]; discriminate H|].
    intros [[c H] _]. discriminate H.
Qed.

Lemma extract_metadata_returns_iff_witness :
  exists md, extract_metadata Sample.doc_two_http "flows/ok.json" = Ok md.
Proof.
  apply (proj2 (@extract_metadata_returns_iff
                  [ Sample.str_entry "nodes"
                      (VList [Sample.node "1" "A" "http";
                              Sample.node "2" "B" "http"]);
                    Sample.str_entry "connections"
                      (VDict [ Sample.str_entry "1"
                                 (VDict [ Sample.str_entry "main"
                                            (VList [VList [VStr "2"]]) ]) ]) ]
                  [Sample.node "1" "A" "http"; Sample.node "2" "B" "http"]
                  "flows/ok.json" eq_refl)).
  split; reflexivity.
Defined.

(** X6.  The metadata returned for a mapping carries the given path, the
    document's [id] and [name] or the defaults ["unknown"] and ["unnamed"]
    when these are missing, and says whether [connections] is present; with
    [connections] missing the connection count is 0. *)
Theorem extract_metadata_defaults (items : list (value * value))
    (path : string) (md : WorkflowMetadata) :
  extract_metadata (VDict items) path = Ok md ->
  filepath md = path
  /\ workflow_id md = match get_str items "id" with
                      | Some x => x
                      | None => VStr "unknown"
                      end
  /\ workflow_name md = match get_str items "name" with
                        | Some x => x
                        | None => VStr "unnamed"
                        end
  /\ has_connections md = has_str items "connections"
  /\ (get_str items "connections" = None -> connections_count md = 0)
  /\ (get_str items "nodes" = None ->
      node_count md = 0 /\ node_types md = []).
Proof.
  unfold extract_metadata. cbn [get_default Py.bind contains_str].
  destruct (node_type_counts (VDict items)) as [counts|e] eqn:Hc;
    cbn [Py.bind]; [|discriminate].
  destruct (values_of _) as [vs|e] eqn:Hv; cbn [Py.bind]; [|discriminate].
  destruct (len _) as [n|e] eqn:Hl; cbn [Py.bind]; [|discriminate].
  intros H; inversion H; subst; clear H. cbn.
  repeat split.
  - intros Hnone. rewrite Hnone in Hv. inversion Hv. reflexivity.
  - rewrite H in Hl. inversion Hl. reflexivity.
  - unfold node_type_counts in Hc. cbn [get_default Py.bind] in Hc.
    rewrite H in Hc. inversion Hc. reflexivity.
Qed.

Lemma extract_metadata_defaults_witness :
  exists md,
    extract_metadata (VDict []) "empty.json" = Ok md
    /\ workflow_id md = VStr "unknown"
    /\ workflow_name md = VStr "unnamed"
    /\ node_count md = 0.
Proof.
  eexists. split; [reflexivity|].
  destruct (@extract_metadata_defaults [] "empty.json" _ eq_refl)
    as (_ & Hid & Hname & _ & _ & Hnodes).
  split; [exact Hid|]. split; [exact Hname|].
  exact (proj1 (Hnodes eq_refl)).
Defined.
End ExtractorExtras.

Section CountingExtras.
Import Py WorkflowValidator Spec Shape.

Lemma dict_get_set_string (d : list (value * Z)) s t v :
  string_keys d ->
  dict_get (dict_set d (VStr s) v) (VStr t)
  = if (s =? t)%string then Some v else dict_get d (VStr t).
Proof.
  induction 1 as [|[k c] d [k' Hk] Hd IH]; cbn [dict_set dict_get].
  - cbn [key_eqb]. reflexivity.
  - cbn [fst] in Hk. subst k. cbn [key_eqb].
    destruct (k' =? s)%string eqn:Hks; cbn [dict_get key_eqb].
    + apply String.eqb_eq in Hks. subst k'.
      destruct (s =? t)%string; reflexivity.
    + rewrite IH. destruct (k' =? t)%string eqn:Hkt; [|reflexivity].
      apply String.eqb_eq in Hkt. rewrite <- Hkt.
      now rewrite (String.eqb_sym s k'), Hks.
Qed.

Lemma dict_set_string_keys (d : list (value * Z)) s v :
  string_keys d -> string_keys (dict_set d (VStr s) v).
Proof.
  induction 1 as [|[k c] d Hk Hd IH]; cbn [dict_set].
  - constructor; [eexists; reflexivity | constructor].
  - destruct (key_eqb k (VStr s)); constructor; auto.
Qed.

Lemma count_node_types_by_type nodes : forall acc counts,
  string_keys acc ->
  forallb string_typed_node nodes = true ->
  count_node_types nodes acc = Ok counts ->
  forall t,
    dict_get counts (VStr t)
    = match dict_get acc (VStr t),
            List.length (filter (has_type t) nodes) with
      | None, O => None
      | None, S n => Some (Z.of_nat (S n))
      | Some c, n => Some (c + Z.of_nat n)
      end.
Proof.
  induction nodes as [|n ns IH]; intros acc counts Hacc Hall Hc t;
    cbn [count_node_types forallb filter] in *.
  - inversion Hc; subst. destruct (dict_get counts (VStr t)); cbn;
      [f_equal; lia | reflexivity].
  - apply andb_true_iff in Hall as [Hn Hns].
    destruct n; try discriminate Hn. cbn [string_typed_node] in Hn.
    change (has_type t (VDict d))
      with (key_eqb (node_type (VDict d)) (VStr t)).
    cbn [get_default Py.bind] in Hc. fold (node_type (VDict d)) in Hc.
    destruct (node_type (VDict d)) as [| | | |s| |]; try discriminate Hn.
    cbn [hashable key_eqb] in *.
    rewrite (IH _ _ (dict_set_string_keys s _ Hacc) Hns Hc t).
    rewrite (dict_get_set_string s t _ Hacc).
    destruct (s =? t)%string eqn:Hst; cbn [List.length].
    + apply String.eqb_eq in Hst. subst t.
      destruct (dict_get acc (VStr s)); f_equal; lia.
    + destruct (dict_get acc (VStr t)); reflexivity.
Qed.

(** X7.  When every node is a record whose [type] is a string (or is
    missing, which counts as ["unknown"]), the extracted [node_types] maps
    each type name to the number of nodes of that type, and holds no entry
    for a type no node has. *)
Theorem node_types_count_each_type (items : list (value * value))
    (nodes : list value) (path : string) (md : WorkflowMetadata) (t : string) :
  get_str items "nodes" = Some (VList nodes) ->
  forallb string_typed_node nodes = true ->
  extract_metadata (VDict items) path = Ok md ->
  dict_get (node_types md) (VStr t)
  = match List.length (filter (has_type t) nodes) with
    | O => None
    | S n => Some (Z.of_nat (S n))
    end.
Proof.
  intros Hn Hall Hmd. unfold extract_metadata, node_type_counts in Hmd.
  cbn [get_default Py.bind] in Hmd. rewrite Hn in Hmd.
  cbn [iter Py.bind] in Hmd.
  destruct (count_node_types nodes []) as [counts|e] eqn:Hc;
    cbn [Py.bind] in Hmd; [|discriminate].
  destruct (values_of _) as [vs|e]; cbn [Py.bind len contains_str] in Hmd;
    [|discriminate].
  inversion Hmd; subst; clear Hmd. cbn [node_types].
  apply (count_node_types_by_type nodes (acc := [])); auto.
  constructor.
Qed.

Lemma node_types_count_each_type_witness :
  exists md,
    extract_metadata Sample.doc_two_http "flows/ok.json" = Ok md
    /\ dict_get (node_types md) (VStr "http") = Some 2
    /\ dict_get (node_types md) (VStr "code") = None.
Proof.
  eexists. split; [reflexivity|].
  split.
  - apply (@node_types_count_each_type
             [ Sample.str_entry "nodes"
                 (VList [Sample.node "1" "A" "http";
                         Sample.node "2" "B" "http"]);
               Sample.str_entry "connections"
                 (VDict [ Sample.str_entry "1"
                            (VDict [ Sample.str_entry "main"
                                       (VList [VList [VStr "2"]]) ]) ]) ]
             [Sample.node "1" "A" "http"; Sample.node "2" "B" "http"]
             "flows/ok.json" _ "http");
      reflexivity.
  - apply (@node_types_count_each_type
             [ Sample.str_entry "nodes"
                 (VList [Sample.node "1" "A" "http";
                         Sample.node "2" "B" "http"]);
               Sample.str_entry "connections"
                 (VDict [ Sample.str_entry "1"
                            (VDict [ Sample.str_entry "main"
                                       (VList [VList [VStr "2"]]) ]) ]) ]
             [Sample.node "1" "A" "http"; Sample.node "2" "B" "http"]
             "flows/ok.json" _ "code");
      reflexivity.
Defined.
End CountingExtras.

(** * Further properties of the adapters *)

Section AdapterExtras.
Import Py Spec Shape.

(** X8.  Without its rules file the pattern-scanner adapter fails at once,
    naming the missing path, and starts no process; a run of [analyze]
    then never starts the scanner. *)
Theorem semgrep_needs_rules_file {R : Runtime} {W : World}
    (self : HybridAnalyzer.t) (path : string) :
  path_exists (SemgrepExecutor.rules_path (HybridAnalyzer.semgrep_executor self))
  = false ->
  (forall st,
      SemgrepExecutor.run (HybridAnalyzer.semgrep_executor self) path st
      = (Ok (VList [], false,
             "Semgrep rules not found: "
             ++ SemgrepExecutor.rules_path
                  (HybridAnalyzer.semgrep_executor self)),
         st))
  /\ (forall n res st',
         HybridAnalyzer.analyze self path (IO.fresh n) = (res, st') ->
         ~ In (Spawn (SemgrepExecutor.command
                        (HybridAnalyzer.semgrep_executor self) path))
             (log st')).
Proof.
  intros Hrules.
  assert (Hrun : forall st,
             SemgrepExecutor.run (HybridAnalyzer.semgrep_executor self) path st
             = (Ok (VList [], false,
                    "Semgrep rules not found: "
                    ++ SemgrepExecutor.rules_path
                         (HybridAnalyzer.semgrep_executor self)),
                st)).
  { intros st. unfold SemgrepExecutor.run. rewrite Hrules. reflexivity. }
  split; [exact Hrun|].
  intros n res st' H Hin. apply in_spawned in Hin.
  assert (Hclash :
            In (Spawn (SemgrepExecutor.command
                         (HybridAnalyzer.semgrep_executor self) path))
              [Spawn (AgenticRadarExecutor.command
                        (HybridAnalyzer.agentic_executor self) path)]
            -> False).
  { intros [Heq | []]. discriminate Heq. }
  destruct (analyze_outcomes self path n H)
    as (rf & rok & rerr & revs & sl & sok & serr & sevs
        & Hr & Hrq & Hs & Hcases).
  specialize (Hs (IO.fresh 0)). rewrite Hrun in Hs.
  inversion Hs as [[Hsl Hsok Hserr Hlog]].
  cbn [IO.fresh log app] in Hlog. subst sevs.
  destruct Hcases as [Hq | [[Hq _] | (rec & _ & Hq & _)]];
    rewrite Hq in Hin; [destruct Hin | |]; exact (Hclash Hin).
Qed.

Lemma semgrep_needs_rules_file_witness :
  SemgrepExecutor.run (R := Sample.runtime) (W := Sample.world_flows)
    (HybridAnalyzer.semgrep_executor Sample.analyzer) "flows/ok.json"
    (IO.fresh 0)
  = (Ok (VList [], false,
         "Semgrep rules not found: rules/n8n-generic-patterns.yaml"),
     IO.fresh 0).
Proof.
  apply (proj1 (@semgrep_needs_rules_file Sample.runtime Sample.world_flows
                  Sample.analyzer "flows/ok.json" eq_refl)).
Defined.

(** X9.  Either adapter reports success only after its process exited with
    an accepted code (0 for the radar tool, 0 or 1 for the pattern scanner,
    whose rules file was then present), and then the error message is
    empty; whenever it reports failure there is no finding and the error
    message is not empty. *)
Theorem adapter_success_means_accepted_exit {R : Runtime} {W : World} :
  (forall self path st findings success error st',
      AgenticRadarExecutor.run self path st
      = (Ok (findings, success, error), st') ->
      if success
      then error = ""
           /\ exists out err,
                spawn (AgenticRadarExecutor.command self path)
                = Exited 0 out err
      else findings = VList [] /\ error <> "")
  /\ (forall self path st findings success error st',
         SemgrepExecutor.run self path st
         = (Ok (findings, success, error), st') ->
         if success
         then error = ""
              /\ path_exists (SemgrepExecutor.rules_path self) = true
              /\ exists returncode out err,
                   spawn (SemgrepExecutor.command self path)
                   = Exited returncode out err
                   /\ (returncode = 0 \/ returncode = 1)
         else findings = VList [] /\ error <> "").
Proof.
  split.
  - intros self path st findings success error st'.
    unfold AgenticRadarExecutor.run. io_run.
    destruct (spawn (AgenticRadarExecutor.command self path))
      as [rc out err| | |e];
      try (intros H; inversion H; subst; split; [reflexivity|discriminate]).
    destruct (rc =? 0) eqn:Hrc; cbn [negb];
      [|intros H; inversion H; subst; split; [reflexivity|discriminate]].
    apply Z.eqb_eq in Hrc. subst rc.
    destruct (AgenticRadarExecutor._parse_output _ _ _) as [[f|e] s].
    + intros H; inversion H; subst. split; eauto.
    + intros H; inversion H; subst. split; [reflexivity|discriminate].
  - intros self path st findings success error st'.
    unfold SemgrepExecutor.run.
    destruct (path_exists (SemgrepExecutor.rules_path self)); cbn [negb];
      [|unfold IO.ret; intros H; inversion H; subst;
        split; [reflexivity|discriminate]].
    io_run.
    destruct (spawn (SemgrepExecutor.command self path))
      as [rc out err| | |e];
      try (intros H; inversion H; subst; split; [reflexivity|discriminate]).
    destruct ((rc =? 0) || (rc =? 1)) eqn:Hrc; cbn [negb];
      [|intros H; inversion H; subst; split; [reflexivity|discriminate]].
    destruct (SemgrepExecutor._parse_output _ _) as [[f|e] s].
    + intros H; inversion H; subst. repeat split.
      exists rc, out, err. split; [reflexivity|].
      apply orb_true_iff in Hrc as [Hz | Ho];
        [left; now apply Z.eqb_eq | right; now apply Z.eqb_eq].
    + intros H; inversion H; subst. split; [reflexivity|discriminate].
Qed.

Lemma adapter_success_means_accepted_exit_witness :
  exists returncode out err,
    spawn (World := Sample.world_radar_timeout)
      (SemgrepExecutor.command
         (HybridAnalyzer.semgrep_executor Sample.analyzer) "flows/ok.json")
    = Exited returncode out err
    /\ (returncode = 0 \/ returncode = 1).
Proof.
  apply (proj2 (@adapter_success_means_accepted_exit Sample.runtime
                  Sample.world_radar_timeout)
           (HybridAnalyzer.semgrep_executor Sample.analyzer) "flows/ok.json"
           (IO.fresh 0) (VList [Sample.semgrep_finding]) true ""
           (IO.extend (IO.fresh 0)
              [Spawn (SemgrepExecutor.command
                        (HybridAnalyzer.semgrep_executor Sample.analyzer)
                        "flows/ok.json")])).
  reflexivity.
Defined.

Lemma findings_of_shape {R : Runtime} entries : forall fs,
  SemgrepExecutor.findings_of entries = Ok fs ->
  List.length fs = List.length entries
  /\ Forall (fun f => exists d,
                 f = VDict d
                 /\ dict_keys d
                    = map VStr ["tool"; "rule_id"; "message"; "severity";
                                "path"; "line"; "code"; "metadata"]
                 /\ get_str d "tool" = Some (VStr "semgrep")) fs.
Proof.
  induction entries as [|x xs IH]; intros fs H;
    cbn [SemgrepExecutor.findings_of] in H.
  - inversion H; subst. split; [reflexivity|constructor].
  - destruct (SemgrepExecutor.finding_of x) as [f|e] eqn:Hf;
      cbn [Py.bind] in H; [|discriminate].
    destruct (SemgrepExecutor.findings_of xs) as [fs'|e];
      cbn [Py.bind] in H; [|discriminate].
    inversion H; subst; clear H. destruct (IH fs' eq_refl) as [Hl Hall].
    split; [cbn; now rewrite Hl|].
    constructor; [|exact Hall].
    unfold SemgrepExecutor.finding_of, SemgrepExecutor.get_nested in Hf.
    repeat match type of Hf with
           | Py.bind ?m _ = _ =>
               destruct m; cbn [Py.bind] in Hf; [|discriminate Hf]
           end.
    inversion Hf; subst. eexists. repeat split.
Qed.

(** X10.  Every finding the pattern-scanner adapter returns is a record
    with the eight keys [tool], [rule_id], [message], [severity], [path],
    [line], [code], [metadata] in this order, whose [tool] is ["semgrep"];
    and a report whose [results] is a sequence yields one finding per
    entry once every entry could be converted. *)
Theorem semgrep_findings_are_normalized {R : Runtime} {W : World}
    (self : SemgrepExecutor.t) (path : string) (st : state)
    (findings : value) (success : bool) (error : string) (st' : state) :
  SemgrepExecutor.run self path st = (Ok (findings, success, error), st') ->
  (exists fs,
      findings = VList fs
      /\ Forall (fun f => exists d,
                     f = VDict d
                     /\ dict_keys d
                        = map VStr ["tool"; "rule_id"; "message"; "severity";
                                    "path"; "line"; "code"; "metadata"]
                     /\ get_str d "tool" = Some (VStr "semgrep")) fs)
  /\ (forall entries fs,
         SemgrepExecutor.findings_of entries = Ok fs ->
         List.length fs = List.length entries).
Proof.
  intros Hrun. split; [|intros entries fs Hfs; apply (findings_of_shape _ Hfs)].
  assert (Hempty : exists fs,
             VList [] = VList fs
             /\ Forall (fun f => exists d,
                            f = VDict d
                            /\ dict_keys d
                               = map VStr ["tool"; "rule_id"; "message";
                                           "severity"; "path"; "line"; "code";
                                           "metadata"]
                            /\ get_str d "tool" = Some (VStr "semgrep")) fs)
    by (exists []; split; [reflexivity|constructor]).
  revert Hrun. unfold SemgrepExecutor.run.
  destruct (path_exists (SemgrepExecutor.rules_path self)); cbn [negb];
    [|unfold IO.ret; intros H; inversion H; subst; exact Hempty].
  io_run.
  destruct (spawn (SemgrepExecutor.command self path))
    as [rc out err| | |e];
    try solve [intros H; inversion H; subst; exact Hempty].
  destruct ((rc =? 0) || (rc =? 1)); cbn [negb];
    [|intros H; inversion H; subst; exact Hempty].
  unfold SemgrepExecutor._parse_output.
  destruct (json_loads out) as [data|msg|msg|e]; io_run;
    try solve [intros H; inversion H; subst; exact Hempty].
  destruct (contains_str data "results") as [[|]|]; cbn [Py.bind];
    try solve [intros H; inversion H; subst; exact Hempty].
  destruct (getitem_str data "results") as [rs|]; cbn [Py.bind];
    [|intros H; inversion H; subst; exact Hempty].
  destruct (iter rs) as [entries|]; cbn [Py.bind];
    [|intros H; inversion H; subst; exact Hempty].
  destruct (SemgrepExecutor.findings_of entries) as [fs|] eqn:Hfs;
    cbn [Py.bind]; intros H; inversion H; subst; [|exact Hempty].
  exists fs. split; [reflexivity|]. apply (findings_of_shape _ Hfs).
Qed.

Lemma semgrep_findings_are_normalized_witness :
  exists fs,
    VList [Sample.semgrep_finding] = VList fs
    /\ Forall (fun f => exists d,
                   f = VDict d
                   /\ dict_keys d
                      = map VStr ["tool"; "rule_id"; "message"; "severity";
                                  "path"; "line"; "code"; "metadata"]
                   /\ get_str d "tool" = Some (VStr "semgrep")) fs.
Proof.
  apply (proj1 (@semgrep_findings_are_normalized Sample.runtime
                  Sample.world_radar_timeout
                  (HybridAnalyzer.semgrep_executor Sample.analyzer)
                  "flows/ok.json" (IO.fresh 0)
                  (VList [Sample.semgrep_finding]) true ""
                  (IO.extend (IO.fresh 0)
                     [Spawn (SemgrepExecutor.command
                               (HybridAnalyzer.semgrep_executor
                                  Sample.analyzer)
                               "flows/ok.json")])
                  eq_refl)).
Defined.

(** X11.  After an accepted exit the pattern-scanner adapter reads the
    captured output: text that is not JSON gives a warning on the error
    stream and a successful run without findings; a JSON scalar makes the
    run fail with an execution error; a mapping without [results] gives a
    successful run without findings. *)
Theorem semgrep_output_reading {R : Runtime} {W : World}
    (self : SemgrepExecutor.t) (path : string)
    (returncode : Z) (out err : string) (st : state) :
  path_exists (SemgrepExecutor.rules_path self) = true ->
  spawn (SemgrepExecutor.command self path) = Exited returncode out err ->
  semgrep_allowed returncode = true ->
  (forall msg,
      json_loads out = ReadDecodeError msg ->
      SemgrepExecutor.run self path st
      = (Ok (VList [], true, ""),
         IO.extend st
           [ Spawn (SemgrepExecutor.command self path);
             Stderr ("Warning: Could not parse Semgrep JSON: " ++ msg) ]))
  /\ (forall data,
         json_loads out = ReadOk data ->
         match data with
         | VNone | VBool _ | VInt _ | VFloat _ => True
         | _ => False
         end ->
         SemgrepExecutor.run self path st
         = (Ok (VList [], false,
                "Semgrep execution error: " ++ exn_str TypeError),
            IO.extend st [Spawn (SemgrepExecutor.command self path)]))
  /\ (forall d,
         json_loads out = ReadOk (VDict d) ->
         get_str d "results" = None ->
         SemgrepExecutor.run self path st
         = (Ok (VList [], true, ""),
            IO.extend st [Spawn (SemgrepExecutor.command self path)])).
Proof.
  intros Hrules Hspawn Hrc. unfold semgrep_allowed in Hrc.
  unfold SemgrepExecutor.run, SemgrepExecutor._parse_output.
  rewrite Hrules, Hspawn, Hrc. cbn [negb]. repeat split.
  - intros msg Hj. rewrite Hj. io_run. reflexivity.
  - intros data Hj Hd. rewrite Hj. io_run.
    destruct data; try contradiction; reflexivity.
  - intros d Hj Hres. rewrite Hj. cbn [contains_str]. unfold has_str.
    rewrite Hres. cbn [Py.bind negb]. io_run. rewrite ?extend_nil.
    reflexivity.
Qed.

Lemma semgrep_output_reading_witness :
  SemgrepExecutor.run (R := Sample.runtime) (W := Sample.world_tool_crash)
    (HybridAnalyzer.semgrep_executor Sample.analyzer) "wf.json" (IO.fresh 0)
  = (Ok (VList [], true, ""),
     IO.extend (IO.fresh 0)
       [ Spawn (SemgrepExecutor.command
                  (HybridAnalyzer.semgrep_executor Sample.analyzer) "wf.json");
         Stderr ("Warning: Could not parse Semgrep JSON: "
                 ++ "Expecting value: line 1 column 1 (char 0)") ]).
Proof.
  apply (proj1 (@semgrep_output_reading Sample.runtime
                  Sample.world_tool_crash
                  (HybridAnalyzer.semgrep_executor Sample.analyzer)
                  "wf.json" 1 "Segmentation fault" "" (IO.fresh 0)
                  eq_refl eq_refl eq_refl)).
  reflexivity.
Defined.

(** X12.  After exit code 0, when the JSON artifact holds findings that
    are not empty (a [findings] entry of a mapping, or a bare sequence),
    the radar adapter returns exactly them, whether or not an HTML report
    exists. *)
Theorem radar_returns_artifact_findings {R : Runtime} {W : World}
    (self : AgenticRadarExecutor.t) (path : string)
    (out err : string) (data findings : value) (st : state) :
  let output_path :=
    path_join (AgenticRadarExecutor.output_dir self)
      (path_stem path ++ "_radar") in
  let json_file := path_join output_path (path_stem path ++ ".json") in
  spawn (AgenticRadarExecutor.command self path) = Exited 0 out err ->
  path_exists json_file = true ->
  read_json json_file = ReadOk data ->
  (exists d, data = VDict d /\ get_str d "findings" = Some findings)
  \/ (is_list data = true /\ findings = data) ->
  truthy findings = true ->
  AgenticRadarExecutor.run self path st
  = (Ok (findings, true, ""),
     IO.extend st [Spawn (AgenticRadarExecutor.command self path)]).
Proof.
  intros output_path json_file Hspawn Hjson Hread Hdata Htruthy.
  unfold AgenticRadarExecutor.run, AgenticRadarExecutor._parse_output,
    AgenticRadarExecutor.load_findings.
  fold output_path. fold json_file. rewrite Hspawn, Hjson, Hread.
  cbn [Z.eqb negb]. io_run.
  destruct Hdata as [(d & -> & Hf) | [Hl ->]].
  - rewrite Hf. cbv beta iota. rewrite Htruthy. cbn [negb].
    rewrite andb_false_r. reflexivity.
  - destruct data; try discriminate Hl. cbv beta iota.
    rewrite Htruthy. cbn [negb]. rewrite andb_false_r. reflexivity.
Qed.

Lemma radar_returns_artifact_findings_witness :
  AgenticRadarExecutor.run (R := Sample.runtime)
    (W := Sample.world_radar_findings)
    (HybridAnalyzer.agentic_executor Sample.analyzer) "flows/ok.json"
    (IO.fresh 0)
  = (Ok (VList [Sample.radar_finding], true, ""),
     IO.extend (IO.fresh 0)
       [Spawn (AgenticRadarExecutor.command (R := Sample.runtime)
                 (HybridAnalyzer.agentic_executor Sample.analyzer)
                 "flows/ok.json")]).
Proof.
  apply (@radar_returns_artifact_findings Sample.runtime
           Sample.world_radar_findings
           (HybridAnalyzer.agentic_executor Sample.analyzer) "flows/ok.json"
           "" ""
           (VDict [ Sample.str_entry "findings"
                      (VList [Sample.radar_finding]) ])
           (VList [Sample.radar_finding]) (IO.fresh 0));
    try reflexivity.
  left. eexists. split; reflexivity.
Defined.

(** X13.  After exit code 0, when the [findings] entry of the JSON
    artifact is empty or null but is not a sequence (an empty mapping, an
    empty string, zero, [false] or [null]) and the HTML report exists, the
    radar adapter fails with an execution error and no finding. *)
Theorem radar_fails_on_empty_non_sequence {R : Runtime} {W : World}
    (self : AgenticRadarExecutor.t) (path : string)
    (out err : string) (d : list (value * value)) (findings : value)
    (st : state) :
  let output_path :=
    path_join (AgenticRadarExecutor.output_dir self)
      (path_stem path ++ "_radar") in
  let json_file := path_join output_path (path_stem path ++ ".json") in
  let html_file := path_join output_path (path_stem path ++ ".html") in
  spawn (AgenticRadarExecutor.command self path) = Exited 0 out err ->
  path_exists json_file = true ->
  read_json json_file = ReadOk (VDict d) ->
  get_str d "findings" = Some findings ->
  truthy findings = false -> is_list findings = false ->
  path_exists html_file = true ->
  AgenticRadarExecutor.run self path st
  = (Ok (VList [], false,
         "Agentic Radar execution error: " ++ exn_str AttributeError),
     IO.extend st [Spawn (AgenticRadarExecutor.command self path)]).
Proof.
  intros output_path json_file html_file Hspawn Hjson Hread Hf Hfalsy Hl Hhtml.
  unfold AgenticRadarExecutor.run, AgenticRadarExecutor._parse_output,
    AgenticRadarExecutor.load_findings.
  fold output_path. fold json_file. fold html_file.
  rewrite Hspawn, Hjson, Hread, Hf. cbn [Z.eqb negb]. io_run.
  rewrite Hhtml, Hfalsy. cbn [andb negb].
  destruct findings; try discriminate Hl; reflexivity.
Qed.

Lemma radar_fails_on_empty_non_sequence_witness :
  AgenticRadarExecutor.run (R := Sample.runtime)
    (W := Sample.world_radar_empty_mapping)
    (HybridAnalyzer.agentic_executor Sample.analyzer) "flows/ok.json"
    (IO.fresh 0)
  = (Ok (VList [], false, "Agentic Radar execution error: error"),
     IO.extend (IO.fresh 0)
       [Spawn (AgenticRadarExecutor.command (R := Sample.runtime)
                 (HybridAnalyzer.agentic_executor Sample.analyzer)
                 "flows/ok.json")]).
Proof.
  apply (@radar_fails_on_empty_non_sequence Sample.runtime
           Sample.world_radar_empty_mapping
           (HybridAnalyzer.agentic_executor Sample.analyzer) "flows/ok.json"
           "" "" [ Sample.str_entry "findings" (VDict []) ] (VDict [])
           (IO.fresh 0));
    reflexivity.
Defined.
End AdapterExtras.

(** * Further properties of the orchestrator *)

Section Frames.
Import Shape.

Lemma appends_ret P {A} (a : A) : appends P (IO.ret a).
Proof.
  intros st. exists []. cbn. rewrite app_nil_r. repeat split; auto.
Qed.

Lemma appends_lift P {A} (r : result A) : appends P (IO.lift r).
Proof.
  intros st. exists []. cbn. rewrite app_nil_r. repeat split; auto.
Qed.

Lemma appends_raise P {A} (e : exn) : appends P (@IO.raise A e).
Proof.
  intros st. exists []. cbn. rewrite app_nil_r. repeat split; auto.
Qed.

Lemma appends_emit (P : event -> bool) e : P e = true -> appends P (IO.emit e).
Proof.
  intros He st. exists [e]. cbn. rewrite He. repeat split; auto.
Qed.

Lemma appends_now P {W : World} : appends P IO.datetime_now.
Proof.
  intros st. exists []. cbn. rewrite app_nil_r. repeat split; auto.
Qed.

Lemma appends_bind P {A B} (m : IO A) (k : A -> IO B) :
  appends P m -> (forall a, appends P (k a)) -> appends P (IO.bind m k).
Proof.
  intros Hm Hk st. unfold IO.bind.
  destruct (Hm st) as (evs & Hlog & HP & Ht).
  destruct (m st) as [[a|e] st1]; cbn [snd] in *.
  - destruct (Hk a st1) as (evs' & Hlog' & HP' & Ht').
    exists (evs ++ evs')%list. rewrite Hlog', Hlog, app_assoc, forallb_app, HP, HP'.
    repeat split; auto. lia.
  - exists evs. auto.
Qed.

Lemma appends_try P {A} (m : IO A) : appends P m -> appends P (IO.try m).
Proof.
  intros Hm st. unfold IO.try. destruct (Hm st) as (evs & H).
  destruct (m st) as [r st1]. exists evs. exact H.
Qed.

Lemma appends_for_each P {A} (l : list A) (body : A -> IO unit) :
  (forall x, appends P (body x)) -> appends P (IO.for_each l body).
Proof.
  intros Hbody. induction l as [|x l IH]; cbn [IO.for_each].
  - apply appends_ret.
  - apply appends_bind; auto.
Qed.

End Frames.

Ltac appends_step :=
  match goal with
  | |- Shape.appends _ (IO.bind _ _) => apply appends_bind; [|intros ?]
  | |- Shape.appends _ (IO.ret _) => apply appends_ret
  | |- Shape.appends _ (IO.lift _) => apply appends_lift
  | |- Shape.appends _ (IO.raise _) => apply appends_raise
  | |- Shape.appends _ (IO.print _) =>
      apply appends_emit; cbn; rewrite ?String.eqb_refl; reflexivity
  | |- Shape.appends _ (IO.eprint _) =>
      apply appends_emit; cbn; rewrite ?String.eqb_refl; reflexivity
  | |- Shape.appends _ (IO.emit _) =>
      apply appends_emit; cbn; rewrite ?String.eqb_refl; reflexivity
  | |- Shape.appends _ IO.datetime_now => apply appends_now
  | |- Shape.appends _ (IO.try _) => apply appends_try
  | |- Shape.appends _ (IO.for_each _ _) => apply appends_for_each; intros ?
  | |- Shape.appends _ (match ?x with _ => _ end) => destruct x
  end.

Section OrchestratorExtras.
Import Py Spec Shape.

Lemma radar_run_appends {R : Runtime} {W : World} self path :
  appends console_or_spawn (AgenticRadarExecutor.run self path).
Proof.
  unfold AgenticRadarExecutor.run, AgenticRadarExecutor._parse_output,
    AgenticRadarExecutor.load_findings, AgenticRadarExecutor.warn.
  cbv zeta. repeat appends_step.
Qed.

Lemma semgrep_run_appends {R : Runtime} {W : World} self path :
  appends console_or_spawn (SemgrepExecutor.run self path).
Proof.
  unfold SemgrepExecutor.run, SemgrepExecutor._parse_output.
  cbv zeta. repeat appends_step.
Qed.

Lemma analyze_appends {R : Runtime} {W : World} self path :
  appends console_or_spawn (HybridAnalyzer.analyze self path).
Proof.
  unfold HybridAnalyzer.analyze, HybridAnalyzer.settle. cbv zeta.
  repeat first [ apply radar_run_appends | apply semgrep_run_appends
               | appends_step ].
Qed.

Lemma analyze_each_appends {R : Runtime} {W : World} self files :
  forall results,
    appends console_or_spawn (HybridAnalyzer.analyze_each self files results).
Proof.
  induction files as [|f fs IH]; intros results;
    cbn [HybridAnalyzer.analyze_each].
  - apply appends_ret.
  - apply appends_bind; [apply analyze_appends|].
    intros [record|]; apply IH.
Qed.

Lemma analyze_batch_appends {R : Runtime} {W : World} self directory :
  appends console_or_spawn (HybridAnalyzer.analyze_batch self directory).
Proof.
  unfold HybridAnalyzer.analyze_batch. cbv zeta.
  apply appends_bind; [appends_step|]. intros _. apply analyze_each_appends.
Qed.

(** X14.  [analyze] and [analyze_batch] write no file: whatever the
    outcome, all they add to the log is console output and process
    starts, and they never turn the clock counter back. *)
Theorem analysis_writes_no_file {R : Runtime} {W : World}
    (self : HybridAnalyzer.t) :
  (forall path, appends console_or_spawn (HybridAnalyzer.analyze self path))
  /\ (forall directory,
         appends console_or_spawn
           (HybridAnalyzer.analyze_batch self directory)).
Proof.
  split; [apply analyze_appends | apply analyze_batch_appends].
Qed.
End OrchestratorExtras.

Section RecordExtras.
Import Py Spec Shape.

Lemma analyze_valid_record {R : Runtime} {W : World}
    self path doc r md rf rok rerr revs sl sok serr sevs n :
  WorkflowValidator.load_workflow path = Ok (doc, r) -> valid r = true ->
  WorkflowValidator.extract_metadata doc path = Ok md ->
  (forall st,
      AgenticRadarExecutor.run (HybridAnalyzer.agentic_executor self) path st
      = (Ok (rf, rok, rerr), IO.extend st revs)) ->
  (rok = false -> rf = VList []) ->
  Py.len rf = Ok n ->
  (forall st,
      SemgrepExecutor.run (HybridAnalyzer.semgrep_executor self) path st
      = (Ok (VList sl, sok, serr), IO.extend st sevs)) ->
  (sok = false -> sl = []) ->
  forall st, exists st',
    HybridAnalyzer.analyze self path st
    = (Ok (Some {| workflow_path := path;
                   metadata := md;
                   agentic_radar_findings := rf;
                   semgrep_findings := VList sl;
                   total_findings := n + Z.of_nat (List.length sl);
                   execution_time :=
                     total_seconds (now (ticks st)) (now (S (ticks st)));
                   timestamp := isoformat (now (S (S (ticks st)))) |}),
       st')
    /\ ticks st' = (3 + ticks st)%nat.
Proof.
  intros Hload Hvalid Hmd Hr Hrf Hn Hs Hsl st.
  destruct (warnings_block (warnings r)) as (wevs & Hw & Hwq).
  assert (Hlen : rok = true -> exists n, Py.len rf = Ok n) by eauto.
  destruct (settle_spec "Agentic Radar" rerr Hrf Hlen) as (rline & Hrs).
  assert (Hsf : sok = false -> VList sl = VList [])
    by (intros E; now rewrite (Hsl E)).
  assert (Hsn : sok = true -> exists n, Py.len (VList sl) = Ok n)
    by (intros _; cbn; eauto).
  destruct (settle_spec "Semgrep" serr Hsf Hsn) as (sline & Hss).
  unfold HybridAnalyzer.analyze. io_run. io_run_in Hw.
  rewrite Hload. cbv beta iota. rewrite Hvalid, Hmd. cbn [negb].
  rewrite Hw, Hr. cbv beta iota. rewrite Hrs, Hs. cbv beta iota.
  rewrite Hss, Hn. cbn [Py.len].
  rewrite !ticks_extend. cbn [ticks].
  eexists. split; reflexivity.
Qed.

(** X15.  Every record returned by [analyze] names the analysed path,
    carries the metadata extracted from the loaded document, has
    [total_findings] equal to the sum of the lengths of its two finding
    collections, measures its execution time between the first and the
    second clock reading of the call and is stamped with the third; the
    call reads the clock exactly three times. *)
Theorem analyze_record_invariants {R : Runtime} {W : World}
    (self : HybridAnalyzer.t) (path : string) (st : state)
    (record : AnalysisResult) (st' : state) :
  HybridAnalyzer.analyze self path st = (Ok (Some record), st') ->
  workflow_path record = path
  /\ (exists doc r,
         WorkflowValidator.load_workflow path = Ok (doc, r)
         /\ valid r = true
         /\ WorkflowValidator.extract_metadata doc path
            = Ok (metadata record))
  /\ (exists a b,
         Py.len (agentic_radar_findings record) = Ok a
         /\ Py.len (semgrep_findings record) = Ok b
         /\ total_findings record = a + b)
  /\ execution_time record
     = total_seconds (now (ticks st)) (now (S (ticks st)))
  /\ timestamp record = isoformat (now (S (S (ticks st))))
  /\ ticks st' = (3 + ticks st)%nat.
Proof.
  intros H.
  destruct (WorkflowValidator.load_workflow path) as [[doc r]|e] eqn:Hload.
  2: { destruct (analyze_load_raises self path Hload st) as (s & Hs & _).
       rewrite Hs in H. discriminate H. }
  destruct (valid r) eqn:Hvalid.
  2: { rewrite (analyze_invalid self path Hload Hvalid st) in H.
       discriminate H. }
  destruct (WorkflowValidator.extract_metadata doc path) as [md|e] eqn:Hmd.
  2: { destruct (analyze_extract_raises self path Hload Hvalid Hmd st)
         as (s & Hs & _).
       rewrite Hs in H. discriminate H. }
  destruct (radar_run_spec (HybridAnalyzer.agentic_executor self) path)
    as ([[rf rok] rerr] & revs & Hr & _ & Hrf & _).
  destruct (semgrep_run_spec (HybridAnalyzer.semgrep_executor self) path)
    as (sl & sok & serr & sevs & Hs & Hsl & _).
  cbn [fst snd] in Hrf.
  destruct (Py.len rf) as [n|e] eqn:Hn.
  - destruct (analyze_valid_record self path Hload Hvalid Hmd Hr Hrf Hn Hs Hsl
                st) as (s & Ha & Ht).
    rewrite Ha in H. inversion H; subst; clear H. cbn.
    repeat split; eauto 7.
  - destruct rok.
    + destruct (analyze_radar_unsized self path Hload Hvalid Hmd Hr Hn st)
        as (s & Hs' & _).
      rewrite Hs' in H. discriminate H.
    + rewrite (Hrf eq_refl) in Hn. discriminate Hn.
Qed.

Lemma analyze_record_invariants_witness :
  exists record st',
    HybridAnalyzer.analyze (R := Sample.runtime)
      (W := Sample.world_radar_timeout) Sample.analyzer "flows/ok.json"
      (IO.fresh 0)
    = (Ok (Some record), st')
    /\ total_findings record = 1
    /\ ticks st' = 3%nat.
Proof.
  destruct (HybridAnalyzer.analyze (R := Sample.runtime)
              (W := Sample.world_radar_timeout) Sample.analyzer
              "flows/ok.json" (IO.fresh 0)) as [res st'] eqn:Ha.
  pose proof Ha as Hc. vm_compute in Hc. injection Hc as <- <-.
  eexists; eexists. split; [reflexivity|].
  destruct (@analyze_record_invariants Sample.runtime
              Sample.world_radar_timeout Sample.analyzer "flows/ok.json"
              (IO.fresh 0) _ _ Ha)
    as (_ & _ & (a & b & Ha' & Hb & Hsum) & _ & _ & Ht).
  split; [|exact Ht].
  rewrite Hsum. cbn in Ha', Hb. inversion Ha'. inversion Hb. reflexivity.
Defined.
End RecordExtras.

Section BatchExtras.
Import Py Spec Shape.

(** X16.  A run of [analyze] starts at most two processes, the radar tool
    first and the pattern scanner second; the scanner is never started
    unless the radar tool was. *)
Theorem analyze_starts_radar_then_scanner {R : Runtime} {W : World}
    (self : HybridAnalyzer.t) (path : string) (n : nat)
    (res : result (option AnalysisResult)) (st' : state) :
  HybridAnalyzer.analyze self path (IO.fresh n) = (res, st') ->
  let radar_cmd :=
    Spawn (AgenticRadarExecutor.command
             (HybridAnalyzer.agentic_executor self) path) in
  let semgrep_cmd :=
    Spawn (SemgrepExecutor.command
             (HybridAnalyzer.semgrep_executor self) path) in
  IO.spawned st' = []
  \/ IO.spawned st' = [radar_cmd]
  \/ IO.spawned st' = [radar_cmd; semgrep_cmd].
Proof.
  intros H radar_cmd semgrep_cmd.
  destruct (analyze_outcomes self path n H)
    as (rf & rok & rerr & revs & sl & sok & serr & sevs
        & Hr & Hrq & Hs & Hcases).
  destruct Hcases as [Hq | [[Hq _] | (rec & _ & Hq & _)]]; auto.
  destruct (semgrep_run_spec (HybridAnalyzer.semgrep_executor self) path)
    as (sl' & sok' & serr' & sevs' & Hs' & _ & Hmissing & Hpresent & _).
  specialize (Hs' (IO.fresh 0)). rewrite Hs in Hs'.
  inversion Hs' as [[Hsl Hsok Hserr Hlog]].
  cbn [IO.fresh log app] in Hlog. subst sevs'.
  destruct (path_exists
              (SemgrepExecutor.rules_path
                 (HybridAnalyzer.semgrep_executor self))).
  - destruct (Hpresent eq_refl) as (quiet & -> & Hquiet).
    right. right. rewrite Hq. cbn [filter IO.is_spawn]. now rewrite Hquiet.
  - rewrite (Hmissing eq_refl) in Hq. right. left. exact Hq.
Qed.

Lemma analyze_starts_radar_then_scanner_witness :
  IO.spawned
    (snd (HybridAnalyzer.analyze (R := Sample.runtime)
            (W := Sample.world_radar_timeout) Sample.analyzer
            "flows/ok.json" (IO.fresh 0)))
  = [ Spawn ["agentic-radar"; "scan"; "flows/ok.json"; "--output";
             "analysis_output/ok_radar"];
      Spawn ["semgrep"; "--config"; "rules/n8n-generic-patterns.yaml";
             "--json"; "flows/ok.json"] ].
Proof.
  destruct (HybridAnalyzer.analyze (R := Sample.runtime)
              (W := Sample.world_radar_timeout) Sample.analyzer
              "flows/ok.json" (IO.fresh 0)) as [res st'] eqn:Ha.
  pose proof (@analyze_starts_radar_then_scanner Sample.runtime
                Sample.world_radar_timeout Sample.analyzer "flows/ok.json"
                0%nat res st' Ha) as Horder.
  vm_compute in Ha. injection Ha as <- <-. cbn [snd].
  destruct Horder as [H | [H | H]];
    [vm_compute in H; discriminate H | vm_compute in H; discriminate H
    | exact H].
Defined.

Lemma analyze_each_subseq {R : Runtime} {W : World} self files :
  forall results st out st',
    HybridAnalyzer.analyze_each self files results st = (Ok out, st') ->
    exists new,
      out = (results ++ new)%list
      /\ subseq (map workflow_path new) files.
Proof.
  induction files as [|f files IH]; intros results st out st' H.
  - cbn in H. inversion H; subst. exists []. rewrite app_nil_r.
    split; [reflexivity|constructor].
  - cbn [HybridAnalyzer.analyze_each] in H. unfold IO.bind in H.
    destruct (HybridAnalyzer.analyze self f st) as [[[rec|]|e] st1] eqn:Ha;
      [| |discriminate H].
    + apply analyze_some_inv in Ha as [Hp _].
      destruct (IH _ _ _ _ H) as (new & -> & Hsub).
      exists (rec :: new). rewrite <- app_assoc. split; [reflexivity|].
      cbn [map]. rewrite Hp. now constructor.
    + destruct (IH _ _ _ _ H) as (new & -> & Hsub).
      exists new. split; [reflexivity|]. now constructor.
Qed.

(** X17.  The paths of the records returned by [analyze_batch] form a
    subsequence of the scanned files: every record belongs to a scanned
    file and the order of the scan is kept. *)
Theorem analyze_batch_keeps_scan_order {R : Runtime} {W : World}
    (self : HybridAnalyzer.t) (directory : string) (st : state)
    (out : list AnalysisResult) (st' : state) :
  HybridAnalyzer.analyze_batch self directory st = (Ok out, st') ->
  subseq (map workflow_path out)
    (WorkflowValidator.scan_directory directory "*.json").
Proof.
  unfold HybridAnalyzer.analyze_batch. io_run. intros H.
  destruct (analyze_each_subseq _ _ _ _ H) as (new & -> & Hsub).
  exact Hsub.
Qed.

Lemma analyze_batch_keeps_scan_order_witness :
  exists out,
    fst (HybridAnalyzer.analyze_batch (R := Sample.runtime)
           (W := Sample.world_flows) Sample.analyzer "flows" (IO.fresh 0))
    = Ok out
    /\ subseq (map workflow_path out) ["flows/ok.json"; "flows/empty.json"].
Proof.
  destruct (HybridAnalyzer.analyze_batch (R := Sample.runtime)
              (W := Sample.world_flows) Sample.analyzer "flows" (IO.fresh 0))
    as [res st'] eqn:Hb.
  pose proof Hb as Hc. vm_compute in Hc. injection Hc as <- <-.
  eexists. split; [reflexivity|].
  apply (@analyze_batch_keeps_scan_order Sample.runtime Sample.world_flows
           Sample.analyzer "flows" (IO.fresh 0) _ _ Hb).
Defined.

(** X18.  For a directory that does not exist, or a path that is not a
    directory, [analyze_batch] returns the empty list after printing that
    it found 0 workflow files; it reads no clock and starts no process. *)
Theorem analyze_batch_without_directory {R : Runtime} {W : World}
    (self : HybridAnalyzer.t) (directory : string) (st : state) :
  path_exists directory = false \/ path_isdir directory = false ->
  HybridAnalyzer.analyze_batch self directory st
  = (Ok [],
     IO.extend st
       [Stdout ("[*] Found 0 workflow files in " ++ directory)]).
Proof.
  intros Hdir. unfold HybridAnalyzer.analyze_batch,
                 WorkflowValidator.scan_directory.
  assert (Hscan : (if negb (path_exists directory) then []
                   else if negb (path_isdir directory) then []
                        else glob directory "*.json") = []).
  { destruct Hdir as [-> | ->]; [reflexivity|].
    destruct (path_exists directory); reflexivity. }
  rewrite Hscan. reflexivity.
Qed.

Lemma analyze_batch_without_directory_witness :
  HybridAnalyzer.analyze_batch (R := Sample.runtime)
    (W := Sample.world_flows) Sample.analyzer "nowhere" (IO.fresh 0)
  = (Ok [],
     IO.extend (IO.fresh 0)
       [Stdout "[*] Found 0 workflow files in nowhere"]).
Proof.
  apply (@analyze_batch_without_directory Sample.runtime Sample.world_flows
           Sample.analyzer "nowhere" (IO.fresh 0)).
  left. reflexivity.
Defined.

(** Whether [analyze] raises on a file does not depend on the moment of
    the call. *)
Lemma analyze_raises_or_returns {R : Runtime} {W : World} self path :
  (exists e, forall st, exists st',
        HybridAnalyzer.analyze self path st = (Raise e, st'))
  \/ (forall st, exists r st',
         HybridAnalyzer.analyze self path st = (Ok r, st')).
Proof.
  destruct (WorkflowValidator.load_workflow path) as [[doc r]|e] eqn:Hload.
  2: { left. exists e. intros st.
       destruct (analyze_load_raises self path Hload st) as (s & Hs & _).
       eauto. }
  destruct (valid r) eqn:Hvalid.
  2: { right. intros st.
       rewrite (analyze_invalid self path Hload Hvalid st). eauto. }
  destruct (WorkflowValidator.extract_metadata doc path) as [md|e] eqn:Hmd.
  2: { left. exists e. intros st.
       destruct (analyze_extract_raises self path Hload Hvalid Hmd st)
         as (s & Hs & _).
       eauto. }
  destruct (radar_run_spec (HybridAnalyzer.agentic_executor self) path)
    as ([[rf rok] rerr] & revs & Hr & _ & Hrf & _).
  destruct (semgrep_run_spec (HybridAnalyzer.semgrep_executor self) path)
    as (sl & sok & serr & sevs & Hs & Hsl & _).
  cbn [fst snd] in Hrf.
  destruct (Py.len rf) as [n|e] eqn:Hn.
  - right. intros st.
    destruct (analyze_valid_record self path Hload Hvalid Hmd Hr Hrf Hn Hs Hsl
                st) as (s & Ha & _).
    eauto.
  - destruct rok.
    + left. exists e. intros st.
      destruct (analyze_radar_unsized self path Hload Hvalid Hmd Hr Hn st)
        as (s & Hs' & _).
      eauto.
    + rewrite (Hrf eq_refl) in Hn. discriminate Hn.
Qed.

Lemma analyze_each_returns_iff {R : Runtime} {W : World} self files :
  forall results st,
    (exists out st',
        HybridAnalyzer.analyze_each self files results st = (Ok out, st'))
    <-> (forall f, In f files ->
                   forall st0, exists r st1,
                     HybridAnalyzer.analyze self f st0 = (Ok r, st1)).
Proof.
  induction files as [|f files IH]; intros results st;
    cbn [HybridAnalyzer.analyze_each].
  - split; [intros _ f []|]. intros _. unfold IO.ret. eauto.
  - unfold IO.bind. split.
    + intros (out & st' & H) g [<- | Hg].
      * destruct (analyze_raises_or_returns self f) as [[e He] | Hok];
          [|exact Hok].
        destruct (He st) as (s & Hs). rewrite Hs in H. discriminate H.
      * destruct (HybridAnalyzer.analyze self f st) as [[[rec|]|e] st1];
          [| |discriminate H];
          eapply (proj1 (IH _ _)); eauto.
    + intros Hall. destruct (Hall f (or_introl eq_refl) st) as (r & st1 & Ha).
      rewrite Ha.
      destruct r as [rec|]; apply (proj2 (IH _ _));
        intros g Hg; apply Hall; now right.
Qed.

(** X19.  [analyze_batch] returns a list exactly when [analyze] raises on
    none of the scanned files: one file on which [analyze] raises makes
    the whole batch raise, and the records of the files before it are
    lost. *)
Theorem analyze_batch_returns_iff {R : Runtime} {W : World}
    (self : HybridAnalyzer.t) (directory : string) (st : state) :
  (exists out st',
      HybridAnalyzer.analyze_batch self directory st = (Ok out, st'))
  <-> (forall f,
          In f (WorkflowValidator.scan_directory directory "*.json") ->
          forall st0, exists r st1,
            HybridAnalyzer.analyze self f st0 = (Ok r, st1)).
Proof.
  unfold HybridAnalyzer.analyze_batch. io_run. apply analyze_each_returns_iff.
Qed.

Lemma analyze_batch_returns_iff_witness :
  exists out st',
    HybridAnalyzer.analyze_batch (R := Sample.runtime)
      (W := Sample.world_flows) Sample.analyzer "flows" (IO.fresh 0)
    = (Ok out, st').
Proof.
  apply (proj2 (@analyze_batch_returns_iff Sample.runtime Sample.world_flows
                  Sample.analyzer "flows" (IO.fresh 0))).
  intros f Hf st0.
  destruct (analyze_raises_or_returns (R := Sample.runtime)
              (W := Sample.world_flows) Sample.analyzer f)
    as [[e He] | Hok]; [|exact (Hok st0)].
  destruct (He (IO.fresh 0)) as (s & Hs).
  destruct Hf as [<- | [<- | []]]; vm_compute in Hs; discriminate Hs.
Defined.
End BatchExtras.

(** * Further properties of the report emitters *)

Section EmitterExtras.
Import Py Spec Shape.

Lemma findings_section_appends {R : Runtime} out title findings render :
  appends (touches_only out) (findings_section out title findings render).
Proof. unfold findings_section. repeat appends_step. Qed.

Lemma workflow_sections_appends {R : Runtime} out results : forall idx,
  appends (touches_only out) (workflow_sections out idx results).
Proof.
  induction results as [|r rs IH]; intros idx; cbn [workflow_sections].
  - apply appends_ret.
  - cbv zeta.
    repeat first [ apply findings_section_appends | apply IH | appends_step ].
Qed.

Lemma json_report_appends {R : Runtime} {W : World} results out :
  appends (touches_only out) (generate_json_report results out).
Proof.
  unfold generate_json_report, open_w. cbv zeta. repeat appends_step.
Qed.

Lemma markdown_report_appends {R : Runtime} {W : World} results out :
  appends (touches_only out) (generate_markdown_report results out).
Proof.
  unfold generate_markdown_report, open_w. cbv zeta.
  repeat first [ apply workflow_sections_appends | appends_step ].
Qed.

(** X20.  Each emitter opens and writes no file but its [output_path] and
    starts no process; when [output_path] cannot be opened for writing it
    raises before writing or printing anything. *)
Theorem emitters_touch_only_their_output {R : Runtime} {W : World}
    (results : list AnalysisResult) (output_path : string) :
  appends (touches_only output_path)
    (generate_json_report results output_path)
  /\ appends (touches_only output_path)
       (generate_markdown_report results output_path)
  /\ (writable output_path = false ->
      forall st,
        generate_json_report results output_path st
        = (Raise (OtherError "OSError"), st)
        /\ generate_markdown_report results output_path st
           = (Raise (OtherError "OSError"), st)).
Proof.
  split; [apply json_report_appends|].
  split; [apply markdown_report_appends|].
  intros Hw st. unfold generate_json_report, generate_markdown_report, open_w.
  rewrite Hw. split; reflexivity.
Qed.

Lemma emitters_touch_only_their_output_witness :
  generate_json_report (R := Sample.runtime) (W := Sample.world_read_only)
    [] "report.json" (IO.fresh 0)
  = (Raise (OtherError "OSError"), IO.fresh 0)
  /\ generate_markdown_report (R := Sample.runtime)
       (W := Sample.world_read_only) [] "report.json" (IO.fresh 0)
     = (Raise (OtherError "OSError"), IO.fresh 0).
Proof.
  apply (proj2 (proj2 (@emitters_touch_only_their_output Sample.runtime
                         Sample.world_read_only [] "report.json"))).
  reflexivity.
Defined.






Lemma returns_lift {A} (r : result A) a : r = Ok a -> returns (IO.lift r).
Proof. intros -> st. unfold IO.lift. eauto. Qed.







End EmitterExtras.

(** * Properties of the command line *)

Section CliExtras.
Import Py Spec Shape.

Lemma appends_weaken (P Q : event -> bool) {A} (m : IO A) :
  (forall e, P e = true -> Q e = true) -> appends P m -> appends Q m.
Proof.
  intros HPQ Hm st. destruct (Hm st) as (evs & Hlog & HP & Ht).
  exists evs. repeat split; auto.
  rewrite forallb_forall in *. auto.
Qed.

Lemma console_within paths e :
  console_or_spawn e = true -> Cli.writes_within paths e = true.
Proof. destruct e; cbn; auto; discriminate. Qed.

Lemma touches_within paths p e :
  In p paths -> touches_only p e = true -> Cli.writes_within paths e = true.
Proof.
  intros Hin. destruct e; cbn; auto; intros H;
    apply String.eqb_eq in H; subst; apply existsb_exists;
    exists p; split; auto; apply String.eqb_refl.
Qed.

Lemma log_extend st evs : log (IO.extend st evs) = (log st ++ evs)%list.
Proof. reflexivity. Qed.

(** [report_results] on a non-empty result list, step by step. *)
Lemma report_results_nonempty {R : Runtime} {W : World} {Sh : Cli.Shell}
    args r rs st :
  Cli.report_results args (r :: rs) st
  = let timestamp := Cli.strftime_compact (now (ticks st)) in
    let st1 :=
      {| ticks := S (ticks st);
         log := log st ++ [ Stdout (nl ++ Cli.rule);
                            Stdout "ANALYSIS COMPLETE";
                            Stdout Cli.rule ] |} in
    match (if Cli.wants_json (Cli.format args)
           then generate_json_report (r :: rs) (Cli.json_path args timestamp)
           else IO.ret tt) st1 with
    | (Raise e, st2) => (Raise e, st2)
    | (Ok _, st2) =>
        match (if Cli.wants_markdown (Cli.format args)
               then generate_markdown_report (r :: rs)
                      (Cli.md_path args timestamp)
               else IO.ret tt) st2 with
        | (Raise e, st3) => (Raise e, st3)
        | (Ok _, st3) =>
            (Ok 0,
             IO.extend st3
               [ Stdout (nl ++ Cli.rule);
                 Stdout "SUMMARY";
                 Stdout Cli.rule;
                 Stdout ("Workflows analyzed: "
                         ++ str_of_nat (List.length (r :: rs)));
                 Stdout ("Total findings: "
                         ++ str_of_Z
                              (fold_left Z.add
                                 (map total_findings (r :: rs)) 0));
                 Stdout ("Average execution time: "
                         ++ format_2f
                              (Cli.average (map execution_time (r :: rs))
                                 (List.length (r :: rs)))
                         ++ "s") ])
        end
    end.
Proof.
  unfold Cli.report_results. cbv zeta. io_run.
  rewrite !ticks_extend, !log_extend. cbn [app].
  match goal with
  | |- (let (_, _) := ?m in _) = _ => destruct m as [[u|e] st2]
  end; [|reflexivity].
  match goal with
  | |- (let (_, _) := ?m in _) = _ => destruct m as [[u'|e] st3]
  end; [|reflexivity].
  rewrite !extend_extend. reflexivity.
Qed.

Lemma json_report_opens {R : Runtime} {W : World} rs p st u st' :
  generate_json_report rs p st = (Ok u, st') -> In (OpenW p) (log st').
Proof.
  unfold generate_json_report, open_w. destruct (writable p);
    [|discriminate].
  io_run. intros H; inversion H; subst. cbn [log IO.extend].
  apply in_or_app. right. now left.
Qed.

Lemma markdown_report_opens {R : Runtime} {W : World} rs p st u st' :
  generate_markdown_report rs p st = (Ok u, st') -> In (OpenW p) (log st').
Proof.
  unfold generate_markdown_report, open_w. destruct (writable p);
    [|discriminate].
  unfold IO.bind at 1. unfold IO.emit at 1. cbv beta iota. cbv zeta.
  intros H.
  match type of H with
  | ?f ?s = _ =>
      assert (Hf : appends (touches_only p) f)
        by (repeat first [ apply workflow_sections_appends | appends_step ]);
      destruct (Hf s) as (evs & Hlog & _)
  end.
  rewrite H in Hlog. cbn [snd] in Hlog. rewrite Hlog, log_extend.
  apply in_or_app. left. apply in_or_app. right. now left.
Qed.

Lemma report_results_exit {R : Runtime} {W : World} {Sh : Cli.Shell}
    args rs st code st' :
  Cli.report_results args rs st = (Ok code, st') ->
  (rs = [] /\ code = 1
   /\ st' = IO.extend st
              [Stdout (nl ++ "[!] No successful analyses to report")])
  \/ (rs <> [] /\ code = 0 /\ exists q, In (OpenW q) (log st')).
Proof.
  destruct rs as [|r rs].
  - cbn [Cli.report_results]. io_run. intros H; inversion H; subst.
    left. repeat split.
  - rewrite report_results_nonempty. cbv zeta. intros H. right.
    split; [discriminate|].
    destruct (Cli.format args); cbn [Cli.wants_json Cli.wants_markdown] in H.
    + destruct (generate_json_report _ _ _) as [[u|e] st2] eqn:Hj;
        [|discriminate H].
      unfold IO.ret in H. inversion H; subst. split; [reflexivity|].
      eexists. rewrite log_extend. apply in_or_app. left.
      eapply json_report_opens; eauto.
    + unfold IO.ret in H.
      destruct (generate_markdown_report _ _ _) as [[u|e] st2] eqn:Hm;
        [|discriminate H].
      inversion H; subst. split; [reflexivity|].
      eexists. rewrite log_extend. apply in_or_app. left.
      eapply markdown_report_opens; eauto.
    + destruct (generate_json_report _ _ _) as [[u|e] st2] eqn:Hj;
        [|discriminate H].
      destruct (generate_markdown_report _ _ _) as [[u'|e] st3] eqn:Hm;
        [|discriminate H].
      inversion H; subst. split; [reflexivity|].
      eexists. rewrite log_extend. apply in_or_app. left.
      eapply markdown_report_opens; eauto.
Qed.

Lemma analyzer_init_run {R : Runtime} {W : World} {Sh : Cli.Shell} a b st :
  (exists e, Cli.analyzer_init a b st = (Raise e, st))
  \/ (exists self, Cli.analyzer_init a b st = (Ok self, st)).
Proof.
  unfold Cli.analyzer_init, Cli.radar_init. cbv zeta.
  destruct (Cli.mkdir_p _) as [e|]; io_run; eauto.
Qed.

(** The state in which [main] starts reporting: the results of the
    analysis and a log that holds console output and process starts
    only. *)
Lemma main_reaches_report {R : Runtime} {W : World} {Sh : Cli.Shell}
    args n res st' :
  Cli.main args (IO.fresh n) = (res, st') ->
  (forallb console_or_spawn (log st') = true
   /\ exists e, res = Raise e)
  \/ (exists rs st1,
         forallb console_or_spawn (log st1) = true
         /\ Cli.report_results args rs st1 = (res, st')).
Proof.
  unfold Cli.main, Cli.parser_error.
  destruct (Cli.given (Cli.workflow args)) as [path|];
    destruct (Cli.given (Cli.batch args)) as [directory|];
    try solve [io_run; intros H; inversion H; subst; left;
               split; [reflexivity | eauto]].
  - unfold IO.bind at 1.
    destruct (analyzer_init_run (Some (Cli.output args))
                (Some (Cli.rules args)) (IO.fresh n))
      as [[e ->] | [self ->]].
    { intros H; injection H as <- <-. left. split; [reflexivity|eauto]. }
    unfold IO.bind at 1.
    destruct (analyze_appends self path (IO.fresh n)) as (evs & Hlog & HP & _).
    cbn [IO.fresh log app] in Hlog. rewrite <- Hlog in HP. clear Hlog.
    destruct (HybridAnalyzer.analyze self path (IO.fresh n))
      as [[result|e] st1]; cbn [snd] in HP.
    + intros H. right. exists (match result with
                               | Some record => [record]
                               | None => []
                               end), st1.
      split; [exact HP | exact H].
    + intros H; injection H as <- <-. left. split; [exact HP|eauto].
  - unfold IO.bind at 1.
    destruct (analyzer_init_run (Some (Cli.output args))
                (Some (Cli.rules args)) (IO.fresh n))
      as [[e ->] | [self ->]].
    { intros H; injection H as <- <-. left. split; [reflexivity|eauto]. }
    unfold IO.bind at 1.
    destruct (analyze_batch_appends self directory (IO.fresh n))
      as (evs & Hlog & HP & _).
    cbn [IO.fresh log app] in Hlog. rewrite <- Hlog in HP. clear Hlog.
    destruct (HybridAnalyzer.analyze_batch self directory (IO.fresh n))
      as [[rs|e] st1]; cbn [snd] in HP.
    + intros H. right. exists rs, st1. split; [exact HP | exact H].
    + intros H; injection H as <- <-. left. split; [exact HP|eauto].
Qed.

(** X23.  Given neither a workflow nor a batch directory, or both, [main]
    prints the usage error and ends with [SystemExit] before it builds the
    analyzer: it reads no clock, starts no process and writes no file. *)
Theorem main_rejects_bad_arguments {R : Runtime} {W : World}
    {Sh : Cli.Shell} (args : Cli.Args) (st : state) :
  (Cli.given (Cli.workflow args) = None ->
   Cli.given (Cli.batch args) = None ->
   Cli.main args st
   = (Raise (OtherError "SystemExit"),
      IO.extend st
        [Stderr (Cli.usage_error
                   "Either workflow file or --batch directory must be specified")]))
  /\ (forall path directory,
         Cli.given (Cli.workflow args) = Some path ->
         Cli.given (Cli.batch args) = Some directory ->
         Cli.main args st
         = (Raise (OtherError "SystemExit"),
            IO.extend st
              [Stderr (Cli.usage_error
                         "Cannot specify both workflow file and --batch directory")])).
Proof.
  split.
  - intros Hw Hb. unfold Cli.main. rewrite Hw, Hb. reflexivity.
  - intros path directory Hw Hb. unfold Cli.main. rewrite Hw, Hb.
    reflexivity.
Qed.

Lemma main_rejects_bad_arguments_witness :
  Cli.main (R := Sample.runtime) (W := Sample.world_flows)
    (Sh := SampleCli.shell) SampleCli.nothing_given (IO.fresh 0)
  = (Raise (OtherError "SystemExit"),
     IO.extend (IO.fresh 0)
       [Stderr ("error: Either workflow file or --batch directory "
                ++ "must be specified")]).
Proof.
  apply (proj1 (@main_rejects_bad_arguments Sample.runtime Sample.world_flows
                  SampleCli.shell SampleCli.nothing_given (IO.fresh 0)));
    reflexivity.
Defined.

(** X24.  When [main] returns, its status is 0 or 1: with status 1 no
    file was opened for writing, with status 0 at least one report file
    was. *)
Theorem main_exit_status {R : Runtime} {W : World} {Sh : Cli.Shell}
    (args : Cli.Args) (n : nat) (code : Z) (st' : state) :
  Cli.main args (IO.fresh n) = (Ok code, st') ->
  (code = 1 /\ forall q, ~ In (OpenW q) (log st'))
  \/ (code = 0 /\ exists q, In (OpenW q) (log st')).
Proof.
  intros H.
  destruct (main_reaches_report args n H)
    as [[_ [e He]] | (rs & st1 & Hquiet & Hreport)]; [discriminate He|].
  destruct (report_results_exit args rs st1 Hreport)
    as [(_ & -> & ->) | (_ & -> & Hopen)]; [left|right; auto].
  split; [reflexivity|]. intros q Hin. rewrite log_extend in Hin.
  apply in_app_or in Hin as [Hin | [Hin | []]]; [|discriminate Hin].
  rewrite forallb_forall in Hquiet. specialize (Hquiet _ Hin).
  discriminate Hquiet.
Qed.

Lemma main_exit_status_witness :
  exists st',
    Cli.main (R := Sample.runtime) (W := Sample.world_flows)
      (Sh := SampleCli.shell) SampleCli.single_rejected (IO.fresh 0)
    = (Ok 1, st')
    /\ forall q, ~ In (OpenW q) (log st').
Proof.
  destruct (Cli.main (R := Sample.runtime) (W := Sample.world_flows)
              (Sh := SampleCli.shell) SampleCli.single_rejected (IO.fresh 0))
    as [res st'] eqn:Hm.
  pose proof Hm as Hc. vm_compute in Hc. injection Hc as <- <-.
  eexists. split; [reflexivity|].
  destruct (@main_exit_status Sample.runtime Sample.world_flows
              SampleCli.shell SampleCli.single_rejected 0%nat _ _ Hm)
    as [[_ Hnone] | [Hzero _]]; [exact Hnone | discriminate Hzero].
Defined.

Lemma report_step_within {R : Runtime} {W : World} (b : bool)
    (emit : list AnalysisResult -> string -> IO unit) rs p paths :
  appends (touches_only p) (emit rs p) ->
  (b = true -> In p paths) ->
  appends (Cli.writes_within paths) (if b then emit rs p else IO.ret tt).
Proof.
  intros He Hin. destruct b; [|apply appends_ret].
  eapply appends_weaken; [|exact He].
  intros e. apply touches_within. now apply Hin.
Qed.

Lemma report_results_within {R : Runtime} {W : World} {Sh : Cli.Shell}
    args rs st :
  exists evs,
    log (snd (Cli.report_results args rs st)) = (log st ++ evs)%list
    /\ forallb
         (Cli.writes_within
            (Cli.report_paths args (Cli.strftime_compact (now (ticks st)))))
         evs = true.
Proof.
  destruct rs as [|r rs].
  - cbn [Cli.report_results]. io_run. cbn [snd]. rewrite log_extend.
    eexists. split; reflexivity.
  - rewrite report_results_nonempty. cbv zeta.
    set (ts := Cli.strftime_compact (now (ticks st))).
    set (paths := Cli.report_paths args ts).
    assert (Hj : appends (Cli.writes_within paths)
                   (if Cli.wants_json (Cli.format args)
                    then generate_json_report (r :: rs) (Cli.json_path args ts)
                    else IO.ret tt)).
    { apply report_step_within; [apply json_report_appends|].
      intros Hb. unfold paths, Cli.report_paths. rewrite Hb.
      now left. }
    assert (Hm : appends (Cli.writes_within paths)
                   (if Cli.wants_markdown (Cli.format args)
                    then generate_markdown_report (r :: rs)
                           (Cli.md_path args ts)
                    else IO.ret tt)).
    { apply report_step_within; [apply markdown_report_appends|].
      intros Hb. unfold paths, Cli.report_paths. rewrite Hb.
      apply in_or_app. right. now left. }
    match goal with
    | |- context [match ?m ?s with _ => _ end] =>
        destruct (Hj s) as (evj & Hlj & HPj & _);
        destruct (m s) as [[u|e] st2]
    end; cbn [snd log] in Hlj.
    + match goal with
      | |- context [match ?m ?s with _ => _ end] =>
          destruct (Hm s) as (evm & Hlm & HPm & _);
          destruct (m s) as [[u'|e] st3]
      end; cbn [snd log] in Hlm |- *.
      * rewrite log_extend, Hlm, Hlj, <- !app_assoc.
        eexists. split; [reflexivity|].
        rewrite !forallb_app, HPj, HPm. reflexivity.
      * rewrite Hlm, Hlj, <- !app_assoc.
        eexists. split; [reflexivity|].
        rewrite !forallb_app, HPj, HPm. reflexivity.
    + cbn [snd]. rewrite Hlj, <- !app_assoc.
      eexists. split; [reflexivity|].
      rewrite !forallb_app, HPj. reflexivity.
Qed.

(** X25.  Whatever the outcome of [main], the only files it opens or
    writes are its report files for one timestamp read off the clock.  With
    [--format both] these are [<output>/report_<timestamp>.json] and
    [<output>/report_<timestamp>.md] even when [--report] names another
    path; [--report] is the one report file when the format is [json] or
    [markdown]. *)
Theorem main_writes_only_its_reports {R : Runtime} {W : World}
    {Sh : Cli.Shell} (args : Cli.Args) (n : nat) (res : result Z)
    (st' : state) :
  Cli.main args (IO.fresh n) = (res, st') ->
  (exists stamp,
      forallb
        (Cli.writes_within
           (Cli.report_paths args (Cli.strftime_compact stamp)))
        (log st') = true)
  /\ (forall timestamp,
         Cli.format args = Cli.Both ->
         Cli.report_paths args timestamp
         = [ Cli.output args ++ "/report_" ++ timestamp ++ ".json";
             Cli.output args ++ "/report_" ++ timestamp ++ ".md" ])
  /\ (forall timestamp p,
         Cli.format args <> Cli.Both ->
         Cli.given (Cli.report args) = Some p ->
         Cli.report_paths args timestamp = [p]).
Proof.
  intros H. split; [|split].
  - destruct (main_reaches_report args n H)
      as [[Hquiet _] | (rs & st1 & Hquiet & Hreport)].
    + exists (now 0%nat). rewrite forallb_forall in *.
      intros e He. apply console_within. auto.
    + exists (now (ticks st1)).
      destruct (report_results_within args rs st1) as (evs & Hlog & HP).
      rewrite Hreport in Hlog. cbn [snd] in Hlog.
      rewrite Hlog, forallb_app, HP, andb_true_r.
      rewrite forallb_forall in *. intros e He. apply console_within. auto.
  - intros timestamp Hf. unfold Cli.report_paths, Cli.json_path, Cli.md_path.
    rewrite Hf. cbn [Cli.wants_json Cli.wants_markdown app].
    destruct (Cli.given (Cli.report args)); reflexivity.
  - intros timestamp p Hf Hp.
    unfold Cli.report_paths, Cli.json_path, Cli.md_path. rewrite Hp.
    destruct (Cli.format args); [reflexivity | reflexivity | now elim Hf].
Qed.

Lemma main_writes_only_its_reports_witness :
  Cli.report_paths SampleCli.batch_both "20240101_120003"
  = [ "analysis_output/report_20240101_120003.json";
      "analysis_output/report_20240101_120003.md" ]
  /\ written "mine.json"
       (log (snd (Cli.main (R := Sample.runtime) (W := Sample.world_flows)
                    (Sh := SampleCli.shell) SampleCli.batch_both
                    (IO.fresh 0))))
     = "".
Proof.
  destruct (Cli.main (R := Sample.runtime) (W := Sample.world_flows)
              (Sh := SampleCli.shell) SampleCli.batch_both (IO.fresh 0))
    as [res st'] eqn:Hm.
  destruct (@main_writes_only_its_reports Sample.runtime Sample.world_flows
              SampleCli.shell SampleCli.batch_both 0%nat res st' Hm)
    as (_ & Hboth & _).
  split; [apply (Hboth "20240101_120003"); reflexivity|].
  vm_compute in Hm. injection Hm as <- <-. reflexivity.
Defined.


End CliExtras.
